(** * Lyra prompt optimizer: a shallow embedding of [lyra/optimizer.py]

    The development follows the layout of the Python module:
    - [PyStr]: the [str] methods the optimizer calls ([lower], [split],
      [strip], [in], slicing, [join]);
    - [Re]: a backtracking matcher for the fragment of [re] the patterns
      of the optimizer are written in;
    - [Lyra]: the class [LyraOptimizer], method by method;
    - [CLI]: [parse_input] of the class [LyraCLI] in [lyra/cli.py].

    Python strings are modelled as Rocq strings over 8-bit characters,
    read as the code points U+0000 .. U+00FF; the character classes
    below are CPython's on that range.  Exceptions are results in the
    error monad [sum PyExc]. *)

From Stdlib Require Import String Ascii List ZArith NArith Lia Bool Permutation.
From Stdlib Require Import DecimalString.
From ExtLib Require Import Structures.Monad Structures.MonadExc Data.Monads.EitherMonad.
Import ListNotations.
Import MonadNotation.
Local Open Scope string_scope.
Local Open Scope list_scope.
Local Open Scope monad_scope.

(** ** Exceptions *)

Inductive PyExc : Type :=
| IndexError
| KeyError
| AttributeError.

Abbreviation py A := (sum PyExc A).

(** ** Python [str] *)

Module PyStr.

Definition code (a : ascii) : N := N_of_ascii a.

Definition between (lo hi : N) (a : ascii) : bool :=
  (N.leb lo (code a) && N.leb (code a) hi)%bool.

(** [str.isspace] on one character: TAB..CR, FS..US, SPACE, NEL, NBSP. *)
Definition isspace (a : ascii) : bool :=
  (between 9 13 a || between 28 32 a
   || N.eqb (code a) 133 || N.eqb (code a) 160)%bool.

(** [str.isupper] on one character: A-Z, and the capital letters of
    Latin-1 (U+00C0..U+00DE without the multiplication sign). *)
Definition isupper (a : ascii) : bool :=
  (between 65 90 a
   || (between 192 222 a && negb (N.eqb (code a) 215)))%bool.

Definition lower_char (a : ascii) : ascii :=
  if isupper a then ascii_of_N (code a + 32) else a.

(** [str.lower] *)
Fixpoint lower (s : string) : string :=
  match s with
  | EmptyString => EmptyString
  | String a s' => String (lower_char a) (lower s')
  end.

(** Decimal digits, [\d] of [re]. *)
Definition isdecimal (a : ascii) : bool := between 48 57 a.

(** Word characters, [\w] of [re]: alphanumeric or underscore. *)
Definition isword (a : ascii) : bool :=
  (between 48 57 a || between 65 90 a || N.eqb (code a) 95
   || between 97 122 a
   || N.eqb (code a) 170 || between 178 179 a || N.eqb (code a) 181
   || between 185 186 a || between 188 190 a
   || between 192 214 a || between 216 246 a || between 248 255 a)%bool.

(** [s.startswith(p)] *)
Fixpoint startswith (p s : string) : bool :=
  match p, s with
  | EmptyString, _ => true
  | String a p', String b s' => (Ascii.eqb a b && startswith p' s')%bool
  | String _ _, EmptyString => false
  end.

(** [sub in s] *)
Fixpoint contains (sub s : string) : bool :=
  if startswith sub s then true
  else match s with
       | EmptyString => false
       | String _ s' => contains sub s'
       end.

(** [any(w in s for w in ws)] *)
Definition any_in (ws : list string) (s : string) : bool :=
  existsb (fun w => contains w s) ws.

(** [s.split()]: the maximal runs of non-whitespace characters. *)
Fixpoint split (s : string) : list string :=
  match s with
  | EmptyString => []
  | String a s' =>
      if isspace a then split s'
      else match s' with
           | EmptyString => [String a EmptyString]
           | String b _ =>
               if isspace b then String a EmptyString :: split s'
               else match split s' with
                    | w :: ws => String a w :: ws
                    | [] => [String a EmptyString]
                    end
           end
  end.

(** [s.split(c)] for a one-character separator: never an empty list. *)
Fixpoint split_on (c : ascii) (s : string) : list string :=
  match s with
  | EmptyString => [EmptyString]
  | String a s' =>
      if Ascii.eqb a c then EmptyString :: split_on c s'
      else match split_on c s' with
           | w :: ws => String a w :: ws
           | [] => [String a EmptyString]
           end
  end.

Fixpoint lstrip_by (p : ascii -> bool) (s : string) : string :=
  match s with
  | EmptyString => EmptyString
  | String a s' => if p a then lstrip_by p s' else s
  end.

Fixpoint rstrip_by (p : ascii -> bool) (s : string) : string :=
  match s with
  | EmptyString => EmptyString
  | String a s' =>
      match rstrip_by p s' with
      | EmptyString => if p a then EmptyString else String a EmptyString
      | r => String a r
      end
  end.

Definition strip_by (p : ascii -> bool) (s : string) : string :=
  rstrip_by p (lstrip_by p s).

(** [s.strip()] *)
Definition strip (s : string) : string := strip_by isspace s.

Fixpoint mem_char (a : ascii) (cs : string) : bool :=
  match cs with
  | EmptyString => false
  | String c cs' => (Ascii.eqb a c || mem_char a cs')%bool
  end.

(** [s.strip(chars)] *)
Definition strip_chars (chars s : string) : string :=
  strip_by (fun a => mem_char a chars) s.

(** [s[:n]] *)
Fixpoint take (n : nat) (s : string) : string :=
  match n, s with
  | O, _ => EmptyString
  | S _, EmptyString => EmptyString
  | S n', String a s' => String a (take n' s')
  end.

(** [sep.join(l)] *)
Definition join (sep : string) (l : list string) : string :=
  String.concat sep l.

(** [str.capitalize] on lower-case ASCII identifiers, the only
    arguments it gets in this module. *)
Definition capitalize (s : string) : string :=
  match s with
  | EmptyString => EmptyString
  | String a s' =>
      String (if between 97 122 a then ascii_of_N (code a - 32) else a)
             (lower s')
  end.

(** [str(n)] for a length. *)
Definition of_nat (n : nat) : string :=
  NilEmpty.string_of_uint (Nat.to_uint n).

(** [s[0]] *)
Definition head (s : string) : py ascii :=
  match s with
  | EmptyString => inl IndexError
  | String a _ => inr a
  end.

(** [l[0]] *)
Definition first {A : Type} (l : list A) : py A :=
  match l with
  | [] => inl IndexError
  | x :: _ => inr x
  end.

(** [len(l)] *)
Definition llen {A : Type} (l : list A) : Z := Z.of_nat (List.length l).

Definition newline : ascii := ascii_of_N 10.

Definition nl : string := String newline EmptyString.

(** [s[n:]] *)
Fixpoint drop (n : nat) (s : string) : string :=
  match n, s with
  | O, _ => s
  | S _, EmptyString => EmptyString
  | S n', String _ s' => drop n' s'
  end.

(** [s.split(sep, 1)] for a non-empty separator: the text before and the
    text after the first occurrence of [sep], or [s] alone. *)
Fixpoint split1 (sep s : string) : list string :=
  if startswith sep s then [EmptyString; drop (String.length sep) s]
  else match s with
       | EmptyString => [EmptyString]
       | String a s' =>
           match split1 sep s' with
           | [before; after] => [String a before; after]
           | _ => [s]
           end
       end.

(** [l[n]] *)
Definition index {A : Type} (l : list A) (n : nat) : py A :=
  match nth_error l n with
  | Some x => inr x
  | None => inl IndexError
  end.

End PyStr.

Infix "+++" := String.append (right associativity, at level 60).

(** ** The fragment of [re] used by the optimizer

    Literals, character classes, [\b], sequencing, ordered alternation
    and greedy repetition of a character class, matched by backtracking
    as [re] does: alternatives are tried left to right, a repetition
    takes as much as it can and gives back one character at a time.
    Parentheses only serve [group(0)] here and are left implicit. *)

Module Re.

Inductive regex : Type :=
| Lit   (w : string)
| Class (p : ascii -> bool)
| Bnd
| Seq   (r1 r2 : regex)
| Alt   (r1 r2 : regex)
| Star  (p : ascii -> bool)
| Plus  (p : ascii -> bool).

(** [(w|w1|...|wn)] *)
Fixpoint alts (w : string) (ws : list string) : regex :=
  match ws with
  | [] => Lit w
  | w' :: ws' => Alt (Lit w) (alts w' ws')
  end.

(** [.] matches anything but a newline. *)
Definition dot (a : ascii) : bool := negb (Ascii.eqb a PyStr.newline).

(** A continuation receives the character before the cursor and the
    text after it, and answers with the text left after the whole match. *)
Definition cont : Type := option ascii -> string -> option string.

Definition word_before (prev : option ascii) : bool :=
  match prev with
  | Some a => PyStr.isword a
  | None => false
  end.

Definition word_after (s : string) : bool :=
  match s with
  | String a _ => PyStr.isword a
  | EmptyString => false
  end.

Fixpoint lit (w : string) (prev : option ascii) (s : string) (k : cont)
  : option string :=
  match w with
  | EmptyString => k prev s
  | String a w' =>
      match s with
      | String b s' => if Ascii.eqb a b then lit w' (Some b) s' k else None
      | EmptyString => None
      end
  end.

Fixpoint star (p : ascii -> bool) (prev : option ascii) (s : string)
  (k : cont) : option string :=
  match s with
  | String a s' =>
      if p a then
        match star p (Some a) s' k with
        | Some rest => Some rest
        | None => k prev s
        end
      else k prev s
  | EmptyString => k prev s
  end.

Fixpoint run (r : regex) (prev : option ascii) (s : string) (k : cont)
  : option string :=
  match r with
  | Lit w => lit w prev s k
  | Class p =>
      match s with
      | String a s' => if p a then k (Some a) s' else None
      | EmptyString => None
      end
  | Bnd => if xorb (word_before prev) (word_after s) then k prev s else None
  | Seq r1 r2 => run r1 prev s (fun prev' s' => run r2 prev' s' k)
  | Alt r1 r2 =>
      match run r1 prev s k with
      | Some rest => Some rest
      | None => run r2 prev s k
      end
  | Star p => star p prev s k
  | Plus p =>
      match s with
      | String a s' => if p a then star p (Some a) s' k else None
      | EmptyString => None
      end
  end.

(** [re.match] at the cursor: the matched text, [group(0)]. *)
Definition match_here (r : regex) (prev : option ascii) (s : string)
  : option string :=
  match run r prev s (fun _ rest => Some rest) with
  | Some rest => Some (PyStr.take (String.length s - String.length rest) s)
  | None => None
  end.

Fixpoint search_from (r : regex) (prev : option ascii) (s : string)
  : option string :=
  match match_here r prev s with
  | Some g => Some g
  | None =>
      match s with
      | String a s' => search_from r (Some a) s'
      | EmptyString => None
      end
  end.

(** [re.search(r, s)]: the leftmost match, as its [group(0)]. *)
Definition search (r : regex) (s : string) : option string :=
  search_from r None s.

(** [m.group(0)] where [m] may be [None]. *)
Definition group0 (m : option string) : py string :=
  match m with
  | Some g => inr g
  | None => inl AttributeError
  end.

Definition matched (m : option string) : bool :=
  match m with
  | Some _ => true
  | None => false
  end.

End Re.

(** ** Data model *)

Inductive AIPlatform : Type := CHATGPT | CLAUDE | GEMINI | OTHER.

Inductive Mode : Type := DETAIL | BASIC.

Inductive TaskType : Type :=
| CREATIVE | TECHNICAL | ANALYTICAL | EDUCATIONAL | COMPLEX | SIMPLE.

Definition TaskType_eqb (a b : TaskType) : bool :=
  match a, b with
  | CREATIVE, CREATIVE | TECHNICAL, TECHNICAL | ANALYTICAL, ANALYTICAL
  | EDUCATIONAL, EDUCATIONAL | COMPLEX, COMPLEX | SIMPLE, SIMPLE => true
  | _, _ => false
  end.

Definition Mode_eqb (a b : Mode) : bool :=
  match a, b with
  | DETAIL, DETAIL | BASIC, BASIC => true
  | _, _ => false
  end.

(** [TaskType.value] *)
Definition TaskType_value (t : TaskType) : string :=
  match t with
  | CREATIVE => "creative"
  | TECHNICAL => "technical"
  | ANALYTICAL => "analytical"
  | EDUCATIONAL => "educational"
  | COMPLEX => "complex"
  | SIMPLE => "simple"
  end.

Record PromptAnalysis : Type := mkAnalysis {
  core_intent : string;
  key_entities : list string;
  context_level : string;
  output_requirements : list string;
  constraints : list string;
  clarity_issues : list string;
  task_type : TaskType;
  complexity_score : Z
}.

Record OptimizationResult : Type := mkResult {
  optimized_prompt : string;
  improvements : list string;
  techniques_applied : list string;
  pro_tip : option string
}.

(** The instance: [__init__] sets both fields to [None]. *)
Record LyraOptimizer : Type := mkLyra {
  platform : option AIPlatform;
  mode : option Mode
}.

Definition __init__ : LyraOptimizer := mkLyra None None.

(** A [Dict[str, List[str]]], as [diagnose] builds it. *)
Definition Dict : Type := list (string * list string).

Fixpoint dict_get (k : string) (d : Dict) : py (list string) :=
  match d with
  | [] => inl KeyError
  | (k', v) :: d' => if String.eqb k k' then inr v else dict_get k d'
  end.

Fixpoint dict_set (k : string) (v : list string) (d : Dict) : Dict :=
  match d with
  | [] => [(k, v)]
  | (k', v') :: d' =>
      if String.eqb k k' then (k, v) :: d' else (k', v') :: dict_set k v d'
  end.

(** [d[k].extend(xs)]; [d[k].append(x)] is [dict_extend k [x] d]. *)
Definition dict_extend (k : string) (xs : list string) (d : Dict) : py Dict :=
  v <- dict_get k d ;;
  ret (dict_set k (v ++ xs) d).

(** [k in d] *)
Definition has_key (k : string) (d : Dict) : Prop :=
  exists v, dict_get k d = inr v.

(** The three keys [diagnose] creates and [deliver] reads. *)
Definition diagnosis_shape (d : Dict) : Prop :=
  has_key "critical_issues" d /\ has_key "improvements_needed" d
  /\ has_key "strengths" d.

(** Truth value of a list and of a string. *)
Definition truthy {A : Type} (l : list A) : bool :=
  match l with
  | [] => false
  | _ :: _ => true
  end.

Definition nonempty (s : string) : bool :=
  match s with
  | EmptyString => false
  | String _ _ => true
  end.

(** [x in l] for a list of strings. *)
Definition mem (x : string) (l : list string) : bool :=
  existsb (String.eqb x) l.

(** ** class LyraOptimizer *)

Section Lyra.

Import PyStr.

(** [list(set(l))]: the elements of [l], each once, in the order in
    which the interpreter's hash table yields them.  The order is fixed
    for one interpreter process and is otherwise left open. *)
Variable set_list : list string -> list string.

(** *** 1. Deconstruct *)

Definition action_patterns : list Re.regex :=
  let verbs w ws :=
    Re.Seq Re.Bnd (Re.Seq (Re.alts w ws) (Re.Seq Re.Bnd (Re.Star Re.dot))) in
  [ verbs "write" ["create"; "generate"; "make"; "build"; "develop";
                   "design"; "draft"; "compose"];
    verbs "analyze" ["review"; "evaluate"; "assess"; "examine"; "study"];
    verbs "explain" ["describe"; "summarize"; "outline"; "clarify"];
    verbs "help" ["assist"; "guide"; "support"];
    verbs "improve" ["optimize"; "enhance"; "refine"; "fix"] ].

(** The loop over [action_patterns]: the first pattern that matches. *)
Fixpoint first_match (patterns : list Re.regex) (s : string)
  : option string :=
  match patterns with
  | [] => None
  | pattern :: rest =>
      match Re.search pattern s with
      | Some g => Some g
      | None => first_match rest s
      end
  end.

Definition _extract_intent (self : LyraOptimizer) (prompt : string)
  : py string :=
  let prompt_lower := lower prompt in
  match first_match action_patterns prompt_lower with
  | Some g => ret (strip g)
  | None =>
      let sentences := split_on "." prompt in
      if truthy sentences then
        s0 <- first sentences ;;
        ret (strip s0)
      else ret (take 100 prompt)
  end.

Definition entity_stopwords : list string := ["the"; "a"; "an"; "i"].

Definition entity_keywords : list string :=
  ["email"; "report"; "code"; "essay"; "article"; "blog"; "resume";
   "letter"; "proposal"; "presentation"; "analysis"; "summary";
   "review"; "plan"; "strategy"; "design"; "system"].

(** The loop over [words]: [word[0]] raises on an empty word. *)
Fixpoint capitalized (words : list string) : py (list string) :=
  match words with
  | [] => ret []
  | word :: rest =>
      c <- head word ;;
      tl <- capitalized rest ;;
      ret (if (isupper c && negb (mem (lower word) entity_stopwords))%bool
           then strip_chars ".,!?;:" word :: tl
           else tl)
  end.

Definition _extract_entities (self : LyraOptimizer) (prompt : string)
  : py (list string) :=
  let words := split prompt in
  caps <- capitalized words ;;
  let entities :=
    caps ++ filter (fun keyword => contains keyword (lower prompt))
                   entity_keywords in
  ret (firstn 10 (set_list entities)).

Definition _assess_context (self : LyraOptimizer) (prompt : string)
  : string :=
  let word_count := llen (split prompt) in
  let has_details :=
    any_in ["because"; "for"; "about"; "regarding"; "context"]
           (lower prompt) in
  if ((50 <? word_count)%Z && has_details)%bool then "High"
  else if ((20 <? word_count)%Z || has_details)%bool then "Medium"
  else "Low".

Definition requirement_patterns : list (string * Re.regex) :=
  [ ("length", Re.Seq (Re.Plus isdecimal)
                 (Re.Seq (Re.Star isspace)
                    (Re.alts "words" ["pages"; "paragraphs"; "sentences"])));
    ("format", Re.alts "format" ["formatted"; "structure"; "template"]);
    ("tone", Re.alts "tone" ["formal"; "casual"; "professional";
                             "friendly"; "persuasive"]);
    ("audience", Re.alts "audience" ["for"; "target"; "readers"]);
    ("style", Re.alts "style" ["writing style"; "approach"]) ].

(** The loop over [requirement_patterns.items()]; the pattern is searched
    a second time for [match], whose [group(0)] raises on [None]. *)
Fixpoint requirements_of (items : list (string * Re.regex)) (s : string)
  : py (list string) :=
  match items with
  | [] => ret []
  | (req_type, pattern) :: rest =>
      here <- (if Re.matched (Re.search pattern s) then
                 g <- Re.group0 (Re.search pattern s) ;;
                 ret [capitalize req_type +++ ": " +++ g]
               else ret []) ;;
      tl <- requirements_of rest s ;;
      ret (here ++ tl)
  end.

Definition _extract_requirements (self : LyraOptimizer) (prompt : string)
  : py (list string) :=
  requirements_of requirement_patterns (lower prompt).

Definition constraint_indicators : list string :=
  ["must"; "should"; "need to"; "required"; "limit"; "only";
   "avoid"; "without"; "don't"; "cannot"; "restriction"].

Definition _extract_constraints (self : LyraOptimizer) (prompt : string)
  : list string :=
  let sentences := split_on "." prompt in
  map strip
      (filter (fun sentence => any_in constraint_indicators (lower sentence))
              sentences).

Definition vague_indicators : list string :=
  ["something"; "anything"; "stuff"; "thing"; "somehow"; "whatever"].

Definition format_indicators : list string :=
  ["format"; "structure"; "output"; "return"; "give me"; "provide"].

Definition pronoun_pattern : Re.regex :=
  Re.Seq Re.Bnd
    (Re.Seq (Re.alts "it" ["this"; "that"; "they"; "them"]) Re.Bnd).

Definition _identify_clarity_issues (self : LyraOptimizer) (prompt : string)
  : list string :=
  (if any_in vague_indicators (lower prompt)
   then ["Contains vague terms"] else [])
  ++ (if (llen (split prompt) <? 5)%Z
      then ["Very brief - may lack necessary context"] else [])
  ++ (if negb (any_in format_indicators (lower prompt))
      then ["Output format not specified"] else [])
  ++ (if Re.matched (Re.search pronoun_pattern (lower prompt))
      then ["Contains potentially ambiguous pronouns"] else []).

Definition creative_keywords : list string :=
  ["story"; "creative"; "imagine"; "invent"; "design"; "brainstorm";
   "idea"; "novel"; "poem"; "art"].

Definition technical_keywords : list string :=
  ["code"; "program"; "debug"; "algorithm"; "function"; "api";
   "technical"; "system"; "implementation"; "architecture"].

Definition analytical_keywords : list string :=
  ["analyze"; "compare"; "evaluate"; "assess"; "research";
   "data"; "statistics"; "metrics"; "performance"].

Definition educational_keywords : list string :=
  ["explain"; "teach"; "learn"; "understand"; "tutorial";
   "lesson"; "guide"; "instruction"; "how to"].

Definition _determine_task_type (self : LyraOptimizer)
  (prompt intent : string) : TaskType :=
  let prompt_lower := lower prompt in
  if any_in creative_keywords prompt_lower then CREATIVE
  else if any_in technical_keywords prompt_lower then TECHNICAL
  else if any_in analytical_keywords prompt_lower then ANALYTICAL
  else if any_in educational_keywords prompt_lower then EDUCATIONAL
  else if ((30 <? llen (split prompt))%Z
           || (2 <? llen (split_on "." prompt))%Z)%bool then COMPLEX
  else SIMPLE.

Definition _calculate_complexity (self : LyraOptimizer) (prompt : string)
  (clarity_issues : list string) (task_type : TaskType) : Z :=
  let score := 5%Z in
  let word_count := llen (split prompt) in
  let score :=
    if (word_count <? 10)%Z then (score - 2)%Z
    else if (50 <? word_count)%Z then (score + 2)%Z
    else score in
  let score := (score + llen clarity_issues)%Z in
  let score :=
    match task_type with
    | TECHNICAL | COMPLEX => (score + 2)%Z
    | SIMPLE => (score - 2)%Z
    | _ => score
    end in
  Z.max 0 (Z.min 10 score).

Definition deconstruct (self : LyraOptimizer) (prompt : string)
  : py PromptAnalysis :=
  core_intent <- _extract_intent self prompt ;;
  key_entities <- _extract_entities self prompt ;;
  let context_level := _assess_context self prompt in
  output_requirements <- _extract_requirements self prompt ;;
  let constraints := _extract_constraints self prompt in
  let clarity_issues := _identify_clarity_issues self prompt in
  let task_type := _determine_task_type self prompt core_intent in
  let complexity_score :=
    _calculate_complexity self prompt clarity_issues task_type in
  ret (mkAnalysis core_intent key_entities context_level
         output_requirements constraints clarity_issues task_type
         complexity_score).

(** *** 2. Diagnose *)

Definition diagnose (self : LyraOptimizer) (analysis : PromptAnalysis)
  : py Dict :=
  let diagnosis : Dict :=
    [("critical_issues", []); ("improvements_needed", []); ("strengths", [])] in
  diagnosis <-
    (if truthy (clarity_issues analysis)
     then dict_extend "critical_issues" (clarity_issues analysis) diagnosis
     else ret diagnosis) ;;
  diagnosis <-
    (if (negb (truthy (key_entities analysis))
         || (llen (key_entities analysis) <? 2)%Z)%bool
     then dict_extend "improvements_needed"
            ["Add more specific details and context"] diagnosis
     else ret diagnosis) ;;
  diagnosis <-
    (if negb (truthy (output_requirements analysis))
     then dict_extend "improvements_needed"
            ["Specify desired output format"] diagnosis
     else ret diagnosis) ;;
  diagnosis <-
    (if String.eqb (context_level analysis) "Low"
     then dict_extend "improvements_needed"
            ["Provide more context and background"] diagnosis
     else ret diagnosis) ;;
  diagnosis <-
    (if ((7 <? complexity_score analysis)%Z
         && negb (truthy (constraints analysis)))%bool
     then dict_extend "improvements_needed"
            ["Break down into steps or add constraints"] diagnosis
     else ret diagnosis) ;;
  diagnosis <-
    (if String.eqb (context_level analysis) "High"
     then dict_extend "strengths" ["Good context provided"] diagnosis
     else ret diagnosis) ;;
  diagnosis <-
    (if truthy (constraints analysis)
     then dict_extend "strengths" ["Clear constraints specified"] diagnosis
     else ret diagnosis) ;;
  diagnosis <-
    (if truthy (output_requirements analysis)
     then dict_extend "strengths" ["Output requirements defined"] diagnosis
     else ret diagnosis) ;;
  ret diagnosis.

(** *** 3. Develop *)

Definition _select_techniques (self : LyraOptimizer)
  (analysis : PromptAnalysis) (mode : Mode) : list string :=
  ["role_assignment"; "task_decomposition"]
  ++ (if Mode_eqb mode DETAIL
      then ["context_layering"; "output_specs"] else [])
  ++ (if (7 <? complexity_score analysis)%Z
      then ["chain_of_thought"] else [])
  ++ (if TaskType_eqb (task_type analysis) CREATIVE
      then ["multi_perspective"] else [])
  ++ (if TaskType_eqb (task_type analysis) TECHNICAL
      then ["constraint_based"] else [])
  ++ (if TaskType_eqb (task_type analysis) EDUCATIONAL
      then ["few_shot"] else []).

(** [roles.get(task_type, roles[TaskType.SIMPLE])]: the table has an
    entry for each of the six task types. *)
Definition _assign_role (self : LyraOptimizer) (task_type : TaskType)
  : string :=
  match task_type with
  | CREATIVE => "You are a creative expert with a talent for innovative thinking and storytelling."
  | TECHNICAL => "You are an experienced technical specialist with deep expertise in software development and problem-solving."
  | ANALYTICAL => "You are a data analyst and critical thinker skilled at breaking down complex information."
  | EDUCATIONAL => "You are an expert educator who excels at explaining concepts clearly and effectively."
  | COMPLEX => "You are a strategic thinker capable of handling multifaceted challenges systematically."
  | SIMPLE => "You are a helpful assistant focused on providing clear, concise responses."
  end.

Definition _enhance_context (self : LyraOptimizer) (prompt : string)
  (analysis : PromptAnalysis) : string :=
  if String.eqb (context_level analysis) "High" then ""
  else
    let context_prompt := nl +++ "**Context:** " in
    if truthy (key_entities analysis)
    then context_prompt +++ "This task involves "
           +++ join ", " (firstn 3 (key_entities analysis)) +++ ". "
    else context_prompt.

Definition _clarify_task (self : LyraOptimizer) (prompt : string)
  (analysis : PromptAnalysis) : string :=
  let task := "**Task:** " +++ core_intent analysis in
  if (truthy (key_entities analysis)
      && (0 <? llen (key_entities analysis))%Z)%bool
  then task +++ nl +++ "**Focus areas:** "
         +++ join ", " (firstn 5 (key_entities analysis))
  else task.

Definition _create_output_spec (self : LyraOptimizer)
  (analysis : PromptAnalysis) (platform : AIPlatform) : string :=
  let spec := nl +++ "**Output Requirements:**" in
  if truthy (output_requirements analysis)
  then fold_left (fun spec req => spec +++ nl +++ "- " +++ req)
         (output_requirements analysis) spec
  else
    match task_type analysis with
    | TECHNICAL =>
        spec +++ nl +++ "- Clear, well-commented code"
             +++ nl +++ "- Explanation of approach"
    | CREATIVE =>
        spec +++ nl +++ "- Original and engaging content"
             +++ nl +++ "- Appropriate tone and style"
    | _ =>
        spec +++ nl +++ "- Clear and well-structured response"
             +++ nl +++ "- Specific and actionable information"
    end.

Definition _add_technical_constraints (self : LyraOptimizer)
  (analysis : PromptAnalysis) : string :=
  nl +++ "**Technical Requirements:**"
     +++ nl +++ "- Follow best practices and coding standards"
     +++ nl +++ "- Consider edge cases and error handling"
     +++ nl +++ "- Optimize for performance and maintainability".

Definition _apply_platform_formatting (self : LyraOptimizer)
  (prompt : string) (platform : AIPlatform) (analysis : PromptAnalysis)
  : string :=
  match platform with
  | CHATGPT => prompt
  | CLAUDE =>
      if (7 <? complexity_score analysis)%Z
      then prompt +++ nl +++ nl
             +++ "**Approach:** Break this down systematically and explain your reasoning."
      else prompt
  | GEMINI =>
      if TaskType_eqb (task_type analysis) CREATIVE
      then prompt +++ nl +++ nl
             +++ "Feel free to explore creative angles and multiple possibilities."
      else prompt
  | OTHER => prompt
  end.

Definition develop (self : LyraOptimizer) (prompt : string)
  (analysis : PromptAnalysis) (platform : AIPlatform) (mode : Mode)
  : string :=
  let techniques := _select_techniques self analysis mode in
  let optimized_parts :=
    (* 1. role assignment *)
    (if mem "role_assignment" techniques
     then [_assign_role self (task_type analysis)] else [])
    (* 2. context layering *)
    ++ (if mem "context_layering" techniques
        then let context := _enhance_context self prompt analysis in
             if nonempty context then [context] else []
        else [])
    (* 3. main task *)
    ++ [_clarify_task self prompt analysis]
    (* 4. output specifications *)
    ++ (if mem "output_specs" techniques
        then [_create_output_spec self analysis platform] else [])
    (* 5. structural element by task type *)
    ++ (if (TaskType_eqb (task_type analysis) CREATIVE
            && mem "multi_perspective" techniques)%bool
        then [nl +++ "Consider multiple perspectives and creative angles."]
        else if (TaskType_eqb (task_type analysis) TECHNICAL
                 && mem "constraint_based" techniques)%bool
        then [_add_technical_constraints self analysis]
        else if (TaskType_eqb (task_type analysis) EDUCATIONAL
                 && mem "few_shot" techniques)%bool
        then [nl +++ "Provide clear examples and step-by-step explanations."]
        else if ((7 <? complexity_score analysis)%Z
                 && mem "chain_of_thought" techniques)%bool
        then [nl +++ "Think through this step-by-step, showing your reasoning."]
        else [])
    (* 6. constraints *)
    ++ (if (truthy (constraints analysis) && Mode_eqb mode DETAIL)%bool
        then (nl +++ "**Constraints:**")
               :: map (fun constraint => "- " +++ constraint)
                      (constraints analysis)
        else []) in
  (* 7. platform-specific formatting *)
  _apply_platform_formatting self (join (nl +++ nl) optimized_parts)
    platform analysis.

(** *** 4. Deliver *)

Definition iteration_tip : string :=
  "For complex requests, consider iterating: start with a draft and refine based on the output.".

Definition default_tip : string :=
  "Be specific about what success looks like for your request.".

(** The table [tips]; [SIMPLE] has no entry. *)
Definition tips (task_type : TaskType) : option string :=
  match task_type with
  | CREATIVE => Some "For creative tasks, consider asking for multiple variations to find the best fit."
  | TECHNICAL => Some "When asking for code, specify your programming language, version, and any frameworks upfront."
  | ANALYTICAL => Some "For analysis tasks, provide sample data or clear criteria for evaluation."
  | EDUCATIONAL => Some "Learning works best when you ask follow-up questions and request examples."
  | COMPLEX => Some "Break complex tasks into smaller subtasks for better results."
  | SIMPLE => None
  end.

Definition _generate_pro_tip (self : LyraOptimizer)
  (analysis : PromptAnalysis) (mode : Mode) : string :=
  if (7 <? complexity_score analysis)%Z then iteration_tip
  else match tips (task_type analysis) with
       | Some tip => tip
       | None => default_tip
       end.

Definition deliver (self : LyraOptimizer) (optimized_prompt : string)
  (analysis : PromptAnalysis) (diagnosis : Dict) (techniques : list string)
  (mode : Mode) : py OptimizationResult :=
  critical <- dict_get "critical_issues" diagnosis ;;
  improvements <-
    (if truthy critical
     then critical <- dict_get "critical_issues" diagnosis ;;
          ret ["Fixed " +++ of_nat (List.length critical)
                 +++ " clarity issues"]
     else ret []) ;;
  needed <- dict_get "improvements_needed" diagnosis ;;
  let improvements :=
    improvements
    ++ (if contains "Add more specific details" (join " " needed)
        then ["Enhanced specificity and detail"] else []) in
  needed <- dict_get "improvements_needed" diagnosis ;;
  let improvements :=
    improvements
    ++ (if contains "Specify desired output format" (join " " needed)
        then ["Added clear output specifications"] else []) in
  needed <- dict_get "improvements_needed" diagnosis ;;
  let improvements :=
    improvements
    ++ (if contains "Provide more context" (join " " needed)
        then ["Layered additional context"] else []) in
  let improvements :=
    improvements
    ++ ["Optimized for " +++ TaskType_value (task_type analysis)
          +++ " tasks"] in
  let pro_tip := _generate_pro_tip self analysis mode in
  ret (mkResult optimized_prompt improvements techniques (Some pro_tip)).

(** *** Public API *)

Definition _parse_platform (self : LyraOptimizer) (platform : string)
  : AIPlatform :=
  let platform_lower := lower platform in
  if (contains "chatgpt" platform_lower || contains "gpt" platform_lower)%bool
  then CHATGPT
  else if contains "claude" platform_lower then CLAUDE
  else if contains "gemini" platform_lower then GEMINI
  else OTHER.

Definition _parse_mode (self : LyraOptimizer) (mode : string) : Mode :=
  if contains "detail" (lower mode) then DETAIL else BASIC.

Definition _auto_detect_mode (self : LyraOptimizer) (prompt : string)
  : Mode :=
  let word_count := llen (split prompt) in
  if ((word_count <? 15)%Z
      && any_in ["write"; "create"; "make"] (lower prompt))%bool
  then BASIC
  else if ((25 <? word_count)%Z
           || any_in ["professional"; "business"; "technical";
                      "comprehensive"; "detailed"] (lower prompt))%bool
  then DETAIL
  else BASIC.

Definition optimize (self : LyraOptimizer) (prompt platform mode : string)
  : py OptimizationResult :=
  let platform_enum := _parse_platform self platform in
  let mode_enum := _parse_mode self mode in
  let mode_enum :=
    if String.eqb mode "auto" then _auto_detect_mode self prompt
    else mode_enum in
  analysis <- deconstruct self prompt ;;
  diagnosis <- diagnose self analysis ;;
  let techniques := _select_techniques self analysis mode_enum in
  let optimized_prompt :=
    develop self prompt analysis platform_enum mode_enum in
  deliver self optimized_prompt analysis diagnosis techniques mode_enum.

Definition format_question : string :=
  "What format would you like the output in? (e.g., bullet points, paragraph, code)".

Definition audience_question : string := "Who is the target audience?".

Definition constraints_question : string :=
  "Are there any specific constraints or requirements I should know about?".

Definition length_question : string := "What length are you aiming for?".

Definition generate_clarifying_questions (self : LyraOptimizer)
  (analysis : PromptAnalysis) : list string :=
  let questions :=
    (if negb (truthy (output_requirements analysis))
     then [format_question] else [])
    ++ (if (TaskType_eqb (task_type analysis) CREATIVE
            || TaskType_eqb (task_type analysis) EDUCATIONAL)%bool
        then
          let has_audience :=
            existsb (fun req => contains "audience" (lower req))
                    (output_requirements analysis) in
          if negb has_audience then [audience_question] else []
        else [])
    ++ (if ((7 <? complexity_score analysis)%Z
            && negb (truthy (constraints analysis)))%bool
        then [constraints_question] else [])
    ++ (let has_length :=
          existsb (fun req => startswith "Length:" req)
                  (output_requirements analysis) in
        if (negb has_length
            && negb (TaskType_eqb (task_type analysis) TECHNICAL))%bool
        then [length_question] else []) in
  firstn 3 questions.

(** *** Reference definitions

    The rules of the analyzer as the specification words them, to be
    compared with the methods above. *)

(** The text before the first occurrence of [c]; all of [s] if none. *)
Fixpoint before_first (c : ascii) (s : string) : string :=
  match s with
  | EmptyString => EmptyString
  | String a s' =>
      if Ascii.eqb a c then EmptyString else String a (before_first c s')
  end.

Definition clamp (lo hi x : Z) : Z :=
  if (x <? lo)%Z then lo else if (hi <? x)%Z then hi else x.

(** Start at 5; -2 under 10 tokens, +2 over 50; +1 per clarity issue;
    +2 for Technical or Complex, -2 for Simple; clamp to 0..10. *)
Definition spec_complexity (tokens issues : Z) (t : TaskType) : Z :=
  clamp 0 10
    (5 - (if (tokens <? 10)%Z then 2 else 0)
       + (if (50 <? tokens)%Z then 2 else 0)
       + issues
       + (match t with TECHNICAL | COMPLEX => 2 | _ => 0 end)
       - (match t with SIMPLE => 2 | _ => 0 end))%Z.

(** The keyword categories in priority order. *)
Definition categories : list (list string * TaskType) :=
  [ (creative_keywords, CREATIVE); (technical_keywords, TECHNICAL);
    (analytical_keywords, ANALYTICAL); (educational_keywords, EDUCATIONAL) ].

(** The first category one of whose keywords occurs in [s]. *)
Fixpoint first_category (cats : list (list string * TaskType)) (s : string)
  : option TaskType :=
  match cats with
  | [] => None
  | (keywords, t) :: rest =>
      if any_in keywords s then Some t else first_category rest s
  end.

(** The four triggers of the clarifying questions, in order. *)
Definition format_trigger (a : PromptAnalysis) : bool :=
  negb (truthy (output_requirements a)).

Definition audience_trigger (a : PromptAnalysis) : bool :=
  ((TaskType_eqb (task_type a) CREATIVE
    || TaskType_eqb (task_type a) EDUCATIONAL)
   && negb (existsb (fun req => contains "audience" (lower req))
              (output_requirements a)))%bool.

Definition constraints_trigger (a : PromptAnalysis) : bool :=
  ((7 <? complexity_score a)%Z && negb (truthy (constraints a)))%bool.

Definition length_trigger (a : PromptAnalysis) : bool :=
  (negb (existsb (fun req => startswith "Length:" req)
           (output_requirements a))
   && negb (TaskType_eqb (task_type a) TECHNICAL))%bool.

Definition fired_questions (a : PromptAnalysis) : list string :=
  map snd
    (filter fst
       [ (format_trigger a, format_question);
         (audience_trigger a, audience_question);
         (constraints_trigger a, constraints_question);
         (length_trigger a, length_question) ]).

End Lyra.

(** ** class LyraCLI: the parser of the interactive command line *)

Module CLI.

Import PyStr.

Record LyraCLI : Type := mkCLI {
  optimizer : LyraOptimizer;
  platform : option string;
  mode : option string
}.

Definition __init__ : LyraCLI := mkCLI __init__ None None.

Definition parse_input (self : LyraCLI) (user_input : string)
  : py (string * string * string) :=
  let platform := "other" in
  let mode := "basic" in
  let prompt := user_input in
  (* mode keyword *)
  let input_lower := lower user_input in
  let '(mode, user_input) :=
    if startswith "detail" input_lower
    then ("detail", strip (drop 6 user_input))
    else if startswith "basic" input_lower
    then ("basic", strip (drop 5 user_input))
    else (mode, user_input) in
  (* platform keyword *)
  if contains "using" (lower user_input) then
    let parts := split1 "using" user_input in
    if (llen parts =? 2)%Z then
      platform_part <- index parts 1 ;;
      let platform_part := strip platform_part in
      let '(platform, platform_part) :=
        if startswith "chatgpt" (lower platform_part)
        then ("chatgpt", strip (drop 7 platform_part))
        else if startswith "claude" (lower platform_part)
        then ("claude", strip (drop 6 platform_part))
        else if startswith "gemini" (lower platform_part)
        then ("gemini", strip (drop 6 platform_part))
        else if startswith "gpt" (lower platform_part)
        then ("chatgpt", strip (drop 3 platform_part))
        else (platform, platform_part) in
      let platform_part :=
        if startswith "-" platform_part
        then strip (drop 1 platform_part)
        else platform_part in
      ret (platform, mode, platform_part)
    else ret (platform, mode, prompt)
  else ret (platform, mode, user_input).

End CLI.

(** One admissible iteration order for a set: each element at its last
    insertion. *)
Definition insertion_order : list string -> list string :=
  nodup string_dec.


(** A prompt of 101 letters with neither a verb nor a period. *)
Definition long_prompt : string :=
  Eval cbv in
    (fix rep (n : nat) : string :=
       match n with
       | O => EmptyString
       | S n' => String "x" (rep n')
       end) 101.

(** *** Closed forms of the diagnosis and of the improvements *)

Definition improvements_needed_of (a : PromptAnalysis) : list string :=
  (if (PyStr.llen (key_entities a) <? 2)%Z
   then ["Add more specific details and context"] else [])
  ++ (if truthy (output_requirements a)
      then [] else ["Specify desired output format"])
  ++ (if String.eqb (context_level a) "Low"
      then ["Provide more context and background"] else [])
  ++ (if ((7 <? complexity_score a)%Z && negb (truthy (constraints a)))%bool
      then ["Break down into steps or add constraints"] else []).

Definition strengths_of (a : PromptAnalysis) : list string :=
  (if String.eqb (context_level a) "High"
   then ["Good context provided"] else [])
  ++ (if truthy (constraints a) then ["Clear constraints specified"] else [])
  ++ (if truthy (output_requirements a)
      then ["Output requirements defined"] else []).

Definition improvements_of (a : PromptAnalysis) : list string :=
  (if truthy (clarity_issues a)
   then ["Fixed " +++ PyStr.of_nat (List.length (clarity_issues a))
           +++ " clarity issues"]
   else [])
  ++ (if (PyStr.llen (key_entities a) <? 2)%Z
      then ["Enhanced specificity and detail"] else [])
  ++ (if truthy (output_requirements a)
      then [] else ["Added clear output specifications"])
  ++ (if String.eqb (context_level a) "Low"
      then ["Layered additional context"] else [])
  ++ ["Optimized for " +++ TaskType_value (task_type a) +++ " tasks"].

(** The mode [optimize] works in, given its mode argument. *)
Definition effective_mode (self : LyraOptimizer) (prompt mode : string)
  : Mode :=
  if String.eqb mode "auto" then _auto_detect_mode self prompt
  else _parse_mode self mode.

(** The test [_extract_entities] makes on a word of the prompt. *)
Definition is_capitalized (w : string) : bool :=
  match w with
  | EmptyString => false
  | String c _ =>
      (PyStr.isupper c && negb (mem (PyStr.lower w) entity_stopwords))%bool
  end.

(** The first of the words that [s] starts with. *)
Fixpoint first_word (ws : list string) (s : string) : option string :=
  match ws with
  | [] => None
  | w :: ws' => if PyStr.startswith w s then Some w else first_word ws' s
  end.


(** [a] occurs in [s] as a contiguous piece. *)
Definition occurs_in (a s : string) : Prop :=
  exists l r, s = l +++ a +++ r.

(** No whitespace at either end. *)
Definition trimmed (s : string) : Prop := PyStr.strip s = s.

(** Non-empty and without whitespace at the end. *)
Definition rstrip_fixed (s : string) : Prop :=
  PyStr.rstrip_by PyStr.isspace s = s /\ s <> "".

(** ** Facts about the string operations *)

Section StrFacts.

Import PyStr.

Lemma split_cons_nonempty (s : string) :
  Forall (fun w => nonempty w = true) (split s).
Proof.
  induction s as [|a s IH]; [constructor|].
  cbn [split]. destruct (isspace a); [exact IH|].
  destruct s as [|b s']; [repeat constructor|].
  destruct (isspace b); [constructor; [reflexivity | exact IH]|].
  destruct (split (String b s')) as [|w ws].
  - repeat constructor.
  - inversion IH; subst. constructor; [reflexivity | assumption].
Qed.

Lemma split_on_first (c : ascii) (s : string) :
  exists rest, split_on c s = before_first c s :: rest.
Proof.
  induction s as [|a s [rest IH]]; cbn [split_on before_first].
  - now exists [].
  - destruct (Ascii.eqb a c).
    + now eexists.
    + rewrite IH. now eexists.
Qed.

Lemma before_first_absent (c : ascii) (s : string) :
  contains (String c EmptyString) s = false -> before_first c s = s.
Proof.
  induction s as [|a s IH]; [reflexivity|].
  cbn [contains startswith before_first].
  rewrite Ascii.eqb_sym.
  destruct (Ascii.eqb a c); cbn [andb]; [discriminate|].
  intros H. now rewrite IH.
Qed.

Lemma startswith_lower (p s : string) :
  startswith p s = true -> startswith (lower p) (lower s) = true.
Proof.
  revert s. induction p as [|a p IH]; intros [|b s]; cbn; try easy.
  destruct (Ascii.eqb_spec a b) as [->|]; [|discriminate].
  intros H. now rewrite Ascii.eqb_refl, IH.
Qed.

(** Matching after [lower] is matching without regard to letter case. *)
Lemma contains_lower (p s : string) :
  contains p s = true -> contains (lower p) (lower s) = true.
Proof.
  induction s as [|b s IH]; cbn [contains lower].
  - destruct (startswith p "") eqn:E; [|discriminate].
    intros _. apply startswith_lower in E. cbn [lower] in E. now rewrite E.
  - destruct (startswith p (String b s)) eqn:E.
    + intros _. apply startswith_lower in E. cbn [lower] in E. now rewrite E.
    + intros H. rewrite (IH H).
      now destruct (startswith (lower p) (String (lower_char b) (lower s))).
Qed.

Lemma any_in_true (ws : list string) (w s : string) :
  In w ws -> contains w s = true -> any_in ws s = true.
Proof.
  intros Hin Hc. apply existsb_exists. now exists w.
Qed.

Lemma first_match_none (patterns : list Re.regex) (s : string) :
  (forall r, In r patterns -> Re.search r s = None) ->
  first_match patterns s = None.
Proof.
  induction patterns as [|r rs IH]; [reflexivity|].
  intros H. cbn [first_match].
  rewrite (H r (or_introl eq_refl)). apply IH.
  intros r' Hr'. apply H. now right.
Qed.

End StrFacts.

(** ** No method raises *)

Section Totality.

Import PyStr.

Variable set_list : list string -> list string.
Variable self : LyraOptimizer.

Lemma dict_set_has_key (k k' : string) (v : list string) (d : Dict) :
  has_key k' d -> has_key k' (dict_set k v d).
Proof.
  unfold has_key. induction d as [|[k0 v0] d IH]; cbn [dict_get dict_set].
  - intros [? [=]].
  - intros H. destruct (String.eqb_spec k k0) as [->|Hk]; cbn [dict_get].
    + destruct (String.eqb k' k0); [now eexists | exact H].
    + destruct (String.eqb k' k0); [exact H | now apply IH].
Qed.

Lemma cond_extend_ok (b : bool) (k : string) (xs : list string) (d : Dict) :
  has_key k d ->
  exists d', (if b then dict_extend k xs d else ret d) = inr d'
             /\ (forall k', has_key k' d -> has_key k' d').
Proof.
  intros [v Hv]. destruct b.
  - unfold dict_extend. rewrite Hv. cbn.
    eexists; split; [reflexivity|].
    intros k' Hk'. now apply dict_set_has_key.
  - exists d. now split.
Qed.

Lemma cond_extend_shape (b : bool) (k : string) (xs : list string) (d : Dict) :
  has_key k d -> diagnosis_shape d ->
  exists d', (if b then dict_extend k xs d else ret d) = inr d'
             /\ diagnosis_shape d'.
Proof.
  intros Hk (H1 & H2 & H3).
  destruct (cond_extend_ok b k xs d Hk) as (d' & E & Hd').
  exists d'. split; [exact E|]. repeat split; now apply Hd'.
Qed.

Ltac extend_step H :=
  match goal with
  | |- context [if ?b then dict_extend ?k ?xs ?d else ret ?d] =>
      let d' := fresh "d" in
      let E := fresh "E" in
      let H' := fresh "H" in
      destruct (cond_extend_shape b k xs d ltac:(apply H) H) as (d' & E & H');
      rewrite E; cbv beta iota; clear E
  end.

Lemma diagnose_ok (analysis : PromptAnalysis) :
  exists d, diagnose self analysis = inr d /\ diagnosis_shape d.
Proof.
  unfold diagnose. cbn [bind Monad_either].
  assert (H0 : diagnosis_shape
                 [("critical_issues", []); ("improvements_needed", []);
                  ("strengths", [])])
    by (repeat split; eexists; reflexivity).
  extend_step H0. extend_step H. extend_step H1. extend_step H2.
  extend_step H3. extend_step H4. extend_step H5. extend_step H6.
  eexists; split; [reflexivity | assumption].
Qed.

Lemma deliver_ok (optimized : string) (analysis : PromptAnalysis)
  (diagnosis : Dict) (techniques : list string) (mode : Mode) :
  diagnosis_shape diagnosis ->
  exists imps,
    deliver self optimized analysis diagnosis techniques mode
    = inr (mkResult optimized imps techniques
             (Some (_generate_pro_tip self analysis mode))).
Proof.
  intros ([c Hc] & [n Hn] & _). unfold deliver.
  rewrite Hc, Hn. cbn [bind Monad_either].
  destruct (truthy c); eexists; reflexivity.
Qed.

Lemma capitalized_ok (words : list string) :
  Forall (fun w => nonempty w = true) words ->
  exists l, capitalized words = inr l.
Proof.
  induction 1 as [|w ws Hw _ [l IH]]; cbn [capitalized].
  - now eexists.
  - destruct w as [|c w]; [discriminate|].
    cbn [head bind Monad_either]. rewrite IH. now eexists.
Qed.

Lemma requirements_of_ok (items : list (string * Re.regex)) (s : string) :
  exists l, requirements_of items s = inr l.
Proof.
  induction items as [|[req_type pattern] rest [l IH]]; cbn [requirements_of].
  - now eexists.
  - rewrite IH. destruct (Re.search pattern s); cbn; now eexists.
Qed.

Lemma extract_intent_ok (prompt : string) :
  exists i, _extract_intent self prompt = inr i.
Proof.
  unfold _extract_intent.
  destruct (first_match action_patterns (lower prompt)); [now eexists|].
  destruct (split_on_first "." prompt) as [rest ->]. cbn. now eexists.
Qed.

Lemma extract_entities_ok (prompt : string) :
  exists l, _extract_entities set_list self prompt = inr l.
Proof.
  unfold _extract_entities.
  destruct (capitalized_ok (split prompt) (split_cons_nonempty prompt))
    as [caps ->].
  cbn [bind Monad_either]. eexists. reflexivity.
Qed.

(** [deconstruct] returns, and its record is built from the extractors. *)
Lemma deconstruct_ok (prompt : string) :
  exists i e r,
    _extract_intent self prompt = inr i
    /\ deconstruct set_list self prompt
       = inr (mkAnalysis i e (_assess_context self prompt) r
                (_extract_constraints self prompt)
                (_identify_clarity_issues self prompt)
                (_determine_task_type self prompt i)
                (_calculate_complexity self prompt
                   (_identify_clarity_issues self prompt)
                   (_determine_task_type self prompt i))).
Proof.
  destruct (extract_intent_ok prompt) as [i Hi].
  destruct (extract_entities_ok prompt) as [e He].
  destruct (requirements_of_ok requirement_patterns (lower prompt)) as [r Hr].
  exists i, e, r. split; [exact Hi|].
  unfold deconstruct, _extract_requirements. rewrite Hi, He, Hr. reflexivity.
Qed.

(** The mode [optimize] works with. *)
Lemma optimize_ok (prompt platform mode : string) :
  exists a imps m,
    deconstruct set_list self prompt = inr a
    /\ optimize set_list self prompt platform mode
       = inr (mkResult
                (develop self prompt a (_parse_platform self platform) m)
                imps (_select_techniques self a m)
                (Some (_generate_pro_tip self a m))).
Proof.
  destruct (deconstruct_ok prompt) as (i & e & r & _ & Ha).
  destruct (diagnose_ok (mkAnalysis i e (_assess_context self prompt) r
                (_extract_constraints self prompt)
                (_identify_clarity_issues self prompt)
                (_determine_task_type self prompt i)
                (_calculate_complexity self prompt
                   (_identify_clarity_issues self prompt)
                   (_determine_task_type self prompt i))))
    as (d & Hd & Hshape).
  unfold optimize. rewrite Ha. cbn [bind Monad_either]. rewrite Hd.
  cbn [bind Monad_either].
  match goal with
  | |- context [deliver self ?o ?a d ?t ?m] =>
      destruct (deliver_ok o a d t m Hshape) as [imps Himps];
      exists a, imps, m
  end.
  split; [reflexivity | exact Himps].
Qed.

End Totality.

(** ** Properties of the analyzer *)

Section Analyzer.

Import PyStr.

Variable set_list : list string -> list string.
Variable self : LyraOptimizer.

Lemma clamp_max_min (x : Z) : Z.max 0 (Z.min 10 x) = clamp 0 10 x.
Proof.
  unfold clamp.
  destruct (Z.ltb_spec x 0), (Z.ltb_spec 10 x); lia.
Qed.

Lemma calculate_complexity_spec (prompt : string) (issues : list string)
  (t : TaskType) :
  _calculate_complexity self prompt issues t
  = spec_complexity (llen (split prompt)) (llen issues) t.
Proof.
  unfold _calculate_complexity, spec_complexity.
  rewrite clamp_max_min. f_equal.
  destruct (Z.ltb_spec (llen (split prompt)) 10),
           (Z.ltb_spec 50 (llen (split prompt))), t; lia.
Qed.

Lemma clamp_range (x : Z) : (0 <= clamp 0 10 x <= 10)%Z.
Proof.
  unfold clamp. destruct (Z.ltb_spec x 0), (Z.ltb_spec 10 x); lia.
Qed.

(** C1, as the code has it: for the input "Help", [deconstruct]
    returns an analysis whose clarity issues are exactly "Very brief -
    may lack necessary context" and "Output format not specified",
    whose task type is Simple, and whose complexity score is 3
    (5, minus 2 for fewer than ten tokens, plus 2 issues, minus 2 for
    Simple), which lies in 0..10. *)
Theorem analyze_Help :
  exists a,
    deconstruct set_list self "Help" = inr a
    /\ clarity_issues a = ["Very brief - may lack necessary context";
                           "Output format not specified"]
    /\ task_type a = SIMPLE
    /\ complexity_score a = 3%Z
    /\ (0 <= complexity_score a <= 10)%Z.
Proof.
  exists (mkAnalysis "help" (firstn 10 (set_list ["Help"])) "Low" [] []
            ["Very brief - may lack necessary context";
             "Output format not specified"] SIMPLE 3).
  split; [vm_compute; reflexivity|].
  cbn [clarity_issues task_type complexity_score].
  repeat split; lia.
Qed.

(** C2, as the code has it: when none of the five verb patterns matches
    the lower-cased prompt, [_extract_intent] returns the text before the
    first period with the surrounding whitespace stripped; when the
    prompt has no period this is the whole prompt, stripped, whatever its
    length. *)
Theorem extract_intent_fallback (prompt : string) :
  (forall r, In r action_patterns -> Re.search r (lower prompt) = None) ->
  _extract_intent self prompt = inr (strip (before_first "." prompt))
  /\ (contains "." prompt = false ->
      _extract_intent self prompt = inr (strip prompt)).
Proof.
  intros Hnone.
  assert (E : _extract_intent self prompt
              = inr (strip (before_first "." prompt))).
  { unfold _extract_intent.
    rewrite (first_match_none _ _ Hnone).
    destruct (split_on_first "." prompt) as [rest ->]. reflexivity. }
  split; [exact E|].
  intros Hdot. rewrite E. now rewrite (before_first_absent _ _ Hdot).
Qed.

(** C3: for every prompt the analysis exists and its complexity score
    lies in 0..10 and is the clamp to 0..10 of 5, minus 2 under ten
    tokens, plus 2 over fifty, plus the number of clarity issues, plus 2
    for Technical or Complex, minus 2 for Simple. *)
Theorem complexity_score_spec (prompt : string) :
  exists a,
    deconstruct set_list self prompt = inr a
    /\ (0 <= complexity_score a <= 10)%Z
    /\ complexity_score a
       = spec_complexity (llen (split prompt)) (llen (clarity_issues a))
           (task_type a).
Proof.
  destruct (deconstruct_ok set_list self prompt) as (i & e & r & _ & Ha).
  eexists. split; [exact Ha|].
  cbn [complexity_score clarity_issues task_type].
  rewrite calculate_complexity_spec.
  split; [apply clamp_range | reflexivity].
Qed.

Lemma determine_task_type_first_category (prompt intent : string) :
  _determine_task_type self prompt intent
  = match first_category categories (lower prompt) with
    | Some t => t
    | None =>
        if ((30 <? llen (split prompt))%Z
            || (2 <? llen (split_on "." prompt))%Z)%bool
        then COMPLEX else SIMPLE
    end.
Proof.
  unfold _determine_task_type, categories. cbn [first_category].
  repeat match goal with
         | |- context [any_in ?ks ?s] => destruct (any_in ks s); try reflexivity
         end.
Qed.

Lemma creative_keywords_lower (k : string) :
  In k creative_keywords -> lower k = k.
Proof.
  intros H. repeat (destruct H as [<-|H]; [reflexivity|]). destruct H.
Qed.

(** C4: the task type is the category of the first keyword set, in the
    order Creative, Technical, Analytical, Educational, one of whose
    keywords occurs in the lower-cased prompt; so a prompt that contains
    a creative keyword is Creative even if it contains a technical
    keyword as well, and [deconstruct] reports it so. *)
Theorem task_type_priority (prompt intent : string) :
  _determine_task_type self prompt intent
  = match first_category categories (lower prompt) with
    | Some ty => ty
    | None =>
        if ((30 <? llen (split prompt))%Z
            || (2 <? llen (split_on "." prompt))%Z)%bool
        then COMPLEX else SIMPLE
    end
  /\ (forall c t,
         In c creative_keywords -> In t technical_keywords ->
         contains c prompt = true -> contains t prompt = true ->
         _determine_task_type self prompt intent = CREATIVE
         /\ exists a, deconstruct set_list self prompt = inr a
                      /\ task_type a = CREATIVE).
Proof.
  split; [apply determine_task_type_first_category|].
  intros c t Hc _ Hpc _.
  assert (Hany : any_in creative_keywords (lower prompt) = true).
  { apply (any_in_true _ c); [exact Hc|].
    rewrite <- (creative_keywords_lower c Hc). now apply contains_lower. }
  assert (Hty : forall i, _determine_task_type self prompt i = CREATIVE).
  { intros i. rewrite determine_task_type_first_category.
    unfold categories. cbn [first_category]. now rewrite Hany. }
  split; [apply Hty|].
  destruct (deconstruct_ok set_list self prompt) as (i & e & r & _ & Ha).
  eexists. split; [exact Ha|]. cbn [task_type]. apply Hty.
Qed.

End Analyzer.

(** ** Properties of the pipeline *)

Section Pipeline.

Import PyStr.

Variable set_list : list string -> list string.

Hypothesis set_list_NoDup : forall l, NoDup (set_list l).
Hypothesis set_list_In : forall l x, In x (set_list l) <-> In x l.

Lemma set_list_pair (a b : string) :
  a <> b -> set_list [a; b] = [a; b] \/ set_list [a; b] = [b; a].
Proof.
  intros Hab. apply Permutation_length_2_inv.
  apply NoDup_Permutation.
  - repeat constructor; cbn; intuition congruence.
  - apply set_list_NoDup.
  - intros x. symmetry. apply set_list_In.
Qed.

(** C5: [optimize("Write email", "other", "basic")] analyses the prompt
    as Simple and returns, byte for byte, the Simple role sentence "You are
    a helpful assistant focused on providing clear, concise responses.", a
    blank line, and the Task block "**Task:** write email" with its Focus
    areas line over the two entities Write and email (in the order the
    set yields them); so the prompt starts with the role sentence,
    contains the Task block with "email" in it, and has neither a
    Constraints header nor an Output Requirements header. *)
Theorem optimize_write_email (self : LyraOptimizer) :
  exists a r,
    deconstruct set_list self "Write email" = inr a
    /\ optimize set_list self "Write email" "other" "basic" = inr r
    /\ task_type a = SIMPLE
    /\ (key_entities a = ["Write"; "email"]
        \/ key_entities a = ["email"; "Write"])
    /\ optimized_prompt r
       = "You are a helpful assistant focused on providing clear, concise responses."
           +++ nl +++ nl +++ "**Task:** write email"
           +++ nl +++ "**Focus areas:** " +++ join ", " (key_entities a)
    /\ optimized_prompt r
       = _assign_role self SIMPLE +++ nl +++ nl
           +++ _clarify_task self "Write email" a
    /\ startswith "**Task:** write email"
         (_clarify_task self "Write email" a) = true
    /\ startswith
         "You are a helpful assistant focused on providing clear, concise responses."
         (optimized_prompt r) = true
    /\ contains (_assign_role self SIMPLE) (optimized_prompt r) = true
    /\ contains "**Task:** write email" (optimized_prompt r) = true
    /\ contains "email" (_clarify_task self "Write email" a) = true
    /\ contains "**Constraints:**" (optimized_prompt r) = false
    /\ contains "**Output Requirements:**" (optimized_prompt r) = false.
Proof.
  remember (deconstruct set_list self "Write email") as da eqn:Ea.
  remember (optimize set_list self "Write email" "other" "basic")
    as dr eqn:Er.
  vm_compute in Ea, Er.
  destruct (set_list_pair "Write" "email") as [H|H]; [discriminate| |];
    rewrite H in Ea, Er; vm_compute in Ea, Er; subst da dr;
    do 2 eexists; (split; [reflexivity|]); (split; [reflexivity|]);
    (split; [reflexivity|]);
    (split; [first [left; reflexivity | right; reflexivity]|]);
    repeat (split; [vm_compute; reflexivity|]); vm_compute; reflexivity.
Qed.

End Pipeline.

(** ** Properties of the public methods *)

Section PublicApi.

Import PyStr.

Variable set_list : list string -> list string.

(** C6: [_parse_platform] looks for its keywords in the lower-cased
    string, in the order chatgpt or gpt, claude, gemini, and answers
    OTHER when none occurs; a keyword is found in whatever letter case
    it is written; "GPT-4" gives CHATGPT and "Claude Opus" gives CLAUDE.
    The method returns a platform for every string. *)
Theorem parse_platform_spec (self : LyraOptimizer) (s : string) :
  let l := lower s in
  _parse_platform self "GPT-4" = CHATGPT
  /\ _parse_platform self "Claude Opus" = CLAUDE
  /\ ((contains "chatgpt" l || contains "gpt" l)%bool = true ->
      _parse_platform self s = CHATGPT)
  /\ ((contains "chatgpt" l || contains "gpt" l)%bool = false ->
      contains "claude" l = true -> _parse_platform self s = CLAUDE)
  /\ ((contains "chatgpt" l || contains "gpt" l)%bool = false ->
      contains "claude" l = false -> contains "gemini" l = true ->
      _parse_platform self s = GEMINI)
  /\ ((contains "chatgpt" l || contains "gpt" l)%bool = false ->
      contains "claude" l = false -> contains "gemini" l = false ->
      _parse_platform self s = OTHER)
  /\ (forall k, In (lower k) ["chatgpt"; "gpt"] -> contains k s = true ->
      _parse_platform self s = CHATGPT)
  /\ (forall s', lower s' = l ->
      _parse_platform self s' = _parse_platform self s).
Proof.
  intros l. subst l. unfold _parse_platform.
  split; [reflexivity|]. split; [reflexivity|].
  split; [now intros ->|].
  split; [now intros -> ->|].
  split; [now intros -> -> ->|].
  split; [now intros -> -> ->|].
  split.
  - intros k Hk Hc. apply contains_lower in Hc.
    destruct Hk as [Hk|[Hk|[]]]; rewrite <- Hk in Hc; rewrite Hc;
      [reflexivity | now rewrite orb_true_r].
  - now intros s' ->.
Qed.

(** C8: [deconstruct] and [optimize] return a value for every prompt,
    platform and mode, the empty prompt included: the indexing, the
    [group(0)] and the dictionary lookups they perform never raise. *)
Theorem optimize_total (self : LyraOptimizer)
  (prompt platform mode : string) :
  (exists a, deconstruct set_list self prompt = inr a)
  /\ (exists r, optimize set_list self prompt platform mode = inr r)
  /\ (exists a, deconstruct set_list self "" = inr a)
  /\ (exists r, optimize set_list self "" platform mode = inr r).
Proof.
  repeat split.
  - destruct (deconstruct_ok set_list self prompt) as (i & e & r & _ & Ha).
    eexists; exact Ha.
  - destruct (optimize_ok set_list self prompt platform mode)
      as (a & imps & m & _ & Hr).
    eexists; exact Hr.
  - destruct (deconstruct_ok set_list self "") as (i & e & r & _ & Ha).
    eexists; exact Ha.
  - destruct (optimize_ok set_list self "" platform mode)
      as (a & imps & m & _ & Hr).
    eexists; exact Hr.
Qed.

Lemma questions_fired (self : LyraOptimizer) (a : PromptAnalysis) :
  generate_clarifying_questions self a = firstn 3 (fired_questions a).
Proof.
  unfold generate_clarifying_questions, fired_questions, format_trigger,
    audience_trigger, constraints_trigger, length_trigger.
  f_equal.
  destruct (truthy (output_requirements a)), (task_type a),
    (existsb (fun req => contains "audience" (lower req))
       (output_requirements a)),
    (7 <? complexity_score a)%Z, (truthy (constraints a)),
    (existsb (fun req => startswith "Length:" req)
       (output_requirements a)); reflexivity.
Qed.

(** C9: for every prompt, the clarifying questions of its analysis are
    the first three of the questions whose triggers fired, taken in the
    order format, audience, constraints, length; there are at most
    three. *)
Theorem clarifying_questions_spec (self : LyraOptimizer) (prompt : string) :
  exists a,
    deconstruct set_list self prompt = inr a
    /\ generate_clarifying_questions self a = firstn 3 (fired_questions a)
    /\ fired_questions a
       = (if format_trigger a then [format_question] else [])
         ++ (if audience_trigger a then [audience_question] else [])
         ++ (if constraints_trigger a then [constraints_question] else [])
         ++ (if length_trigger a then [length_question] else [])
    /\ List.length (generate_clarifying_questions self a) <= 3.
Proof.
  destruct (deconstruct_ok set_list self prompt) as (i & e & r & _ & Ha).
  eexists. split; [exact Ha|].
  split; [apply questions_fired|]. split.
  - unfold fired_questions.
    destruct (format_trigger _), (audience_trigger _),
      (constraints_trigger _), (length_trigger _); reflexivity.
  - rewrite questions_fired. apply firstn_le_length.
Qed.

Lemma generate_pro_tip_cases (self : LyraOptimizer) (a : PromptAnalysis)
  (m : Mode) :
  _generate_pro_tip self a m <> ""
  /\ ((7 < complexity_score a)%Z -> _generate_pro_tip self a m = iteration_tip)
  /\ ((complexity_score a <= 7)%Z ->
      _generate_pro_tip self a m
      = match tips (task_type a) with
        | Some tip => tip
        | None => default_tip
        end).
Proof.
  unfold _generate_pro_tip.
  destruct (Z.ltb_spec 7 (complexity_score a)).
  - repeat split; [discriminate | lia].
  - repeat split; [destruct (task_type a); discriminate | lia].
Qed.

(** C10: the result of [optimize] always carries a tip: [pro_tip] is
    [Some] non-empty string, the iteration tip when the complexity score
    exceeds 7, otherwise the tip of the task type in the table, or the
    default tip for a task type without entry. *)
Theorem pro_tip_present (self : LyraOptimizer)
  (prompt platform mode : string) :
  exists a r tip,
    deconstruct set_list self prompt = inr a
    /\ optimize set_list self prompt platform mode = inr r
    /\ pro_tip r = Some tip
    /\ tip <> ""
    /\ ((7 < complexity_score a)%Z -> tip = iteration_tip)
    /\ ((complexity_score a <= 7)%Z ->
        tip = match tips (task_type a) with
              | Some t => t
              | None => default_tip
              end).
Proof.
  destruct (optimize_ok set_list self prompt platform mode)
    as (a & imps & m & Ha & Hr).
  exists a. eexists. exists (_generate_pro_tip self a m).
  split; [exact Ha|]. split; [exact Hr|]. split; [reflexivity|].
  apply generate_pro_tip_cases.
Qed.

End PublicApi.

(** ** Concrete runs *)

Lemma insertion_order_NoDup (l : list string) : NoDup (insertion_order l).
Proof. apply NoDup_nodup. Qed.

Lemma insertion_order_In (l : list string) (x : string) :
  In x (insertion_order l) <-> In x l.
Proof. apply nodup_In. Qed.



Ltac no_pattern Hr :=
  repeat (destruct Hr as [<-|Hr]; [vm_compute; reflexivity|]); destruct Hr.

(** C1, as the claim words it, fails for "Help": the complexity score of
    its analysis is not at least 5. *)
Lemma analyze_Help_score_below_5 :
  ~ (exists a,
        deconstruct insertion_order __init__ "Help" = inr a
        /\ In "Very brief - may lack necessary context" (clarity_issues a)
        /\ In "Output format not specified" (clarity_issues a)
        /\ task_type a = SIMPLE
        /\ (5 <= complexity_score a <= 10)%Z).
Proof.
  intros (a & Ha & _ & _ & _ & Hscore & _).
  vm_compute in Ha. injection Ha as <-.
  cbn [complexity_score] in Hscore. lia.
Qed.

(** C2, as the claim words it, fails for a prompt of 101 letters [x]: no
    verb pattern matches, there is no period, and the intent is the whole
    prompt, not its first 100 characters. *)
Lemma long_prompt_not_truncated :
  (forall r, In r action_patterns ->
             Re.search r (PyStr.lower long_prompt) = None)
  /\ PyStr.contains "." long_prompt = false
  /\ String.length long_prompt = 101
  /\ _extract_intent __init__ long_prompt = inr long_prompt
  /\ _extract_intent __init__ long_prompt
     <> inr (PyStr.take 100 long_prompt).
Proof.
  split; [intros r Hr; no_pattern Hr|].
  repeat split; try (vm_compute; reflexivity).
  vm_compute. discriminate.
Qed.

Lemma extract_intent_fallback_witness :
  _extract_intent __init__ " The sky. Blue" = inr "The sky"
  /\ _extract_intent __init__ " plain text " = inr "plain text".
Proof.
  split.
  - apply (extract_intent_fallback __init__ " The sky. Blue").
    intros r Hr. no_pattern Hr.
  - apply (extract_intent_fallback __init__ " plain text ").
    + intros r Hr. no_pattern Hr.
    + reflexivity.
Defined.

Lemma task_type_priority_witness :
  _determine_task_type __init__ "Write a story about code" "" = CREATIVE
  /\ exists a,
       deconstruct insertion_order __init__ "Write a story about code" = inr a
       /\ task_type a = CREATIVE.
Proof.
  apply (proj2 (task_type_priority insertion_order __init__
                  "Write a story about code" "") "story" "code").
  - simpl; tauto.
  - simpl; tauto.
  - reflexivity.
  - reflexivity.
Defined.

Lemma optimize_write_email_witness :
  exists a r,
    deconstruct insertion_order __init__ "Write email" = inr a
    /\ optimize insertion_order __init__ "Write email" "other" "basic" = inr r
    /\ task_type a = SIMPLE
    /\ (key_entities a = ["Write"; "email"]
        \/ key_entities a = ["email"; "Write"])
    /\ optimized_prompt r
       = "You are a helpful assistant focused on providing clear, concise responses."
           +++ PyStr.nl +++ PyStr.nl +++ "**Task:** write email"
           +++ PyStr.nl +++ "**Focus areas:** "
           +++ PyStr.join ", " (key_entities a)
    /\ optimized_prompt r
       = _assign_role __init__ SIMPLE +++ PyStr.nl +++ PyStr.nl
           +++ _clarify_task __init__ "Write email" a
    /\ PyStr.startswith "**Task:** write email"
         (_clarify_task __init__ "Write email" a) = true
    /\ PyStr.startswith
         "You are a helpful assistant focused on providing clear, concise responses."
         (optimized_prompt r) = true
    /\ PyStr.contains (_assign_role __init__ SIMPLE) (optimized_prompt r) = true
    /\ PyStr.contains "**Task:** write email" (optimized_prompt r) = true
    /\ PyStr.contains "email" (_clarify_task __init__ "Write email" a) = true
    /\ PyStr.contains "**Constraints:**" (optimized_prompt r) = false
    /\ PyStr.contains "**Output Requirements:**" (optimized_prompt r) = false.
Proof.
  exact (optimize_write_email insertion_order insertion_order_NoDup
           insertion_order_In __init__).
Defined.

Lemma parse_platform_spec_witness :
  _parse_platform __init__ "my GpT" = CHATGPT
  /\ _parse_platform __init__ "Claude-3" = CLAUDE
  /\ _parse_platform __init__ "gEmInI pro" = GEMINI
  /\ _parse_platform __init__ "llama" = OTHER
  /\ _parse_platform __init__ "ChatGPT" = CHATGPT.
Proof.
  split; [|split; [|split; [|split]]].
  - destruct (parse_platform_spec __init__ "my GpT")
      as (_ & _ & H & _).
    apply H. reflexivity.
  - destruct (parse_platform_spec __init__ "Claude-3")
      as (_ & _ & _ & H & _).
    apply H; reflexivity.
  - destruct (parse_platform_spec __init__ "gEmInI pro")
      as (_ & _ & _ & _ & H & _).
    apply H; reflexivity.
  - destruct (parse_platform_spec __init__ "llama")
      as (_ & _ & _ & _ & _ & H & _).
    apply H; reflexivity.
  - destruct (parse_platform_spec __init__ "ChatGPT")
      as (_ & _ & _ & _ & _ & _ & H & _).
    apply (H "ChatGPT"); [simpl; tauto | reflexivity].
Defined.

Lemma pro_tip_present_witness :
  (exists r,
      optimize insertion_order __init__
        "fix the code thing so that it works somehow for all of my users"
        "other" "basic" = inr r
      /\ pro_tip r = Some iteration_tip)
  /\ (exists r,
         optimize insertion_order __init__ "Help" "other" "basic" = inr r
         /\ pro_tip r = Some default_tip).
Proof.
  split.
  - destruct (pro_tip_present insertion_order __init__
                "fix the code thing so that it works somehow for all of my users"
                "other" "basic")
      as (a & r & tip & Ha & Hr & Hp & _ & Hhi & _).
    vm_compute in Ha. injection Ha as <-.
    exists r. split; [exact Hr|]. rewrite Hp. f_equal.
    apply Hhi. reflexivity.
  - destruct (pro_tip_present insertion_order __init__ "Help" "other" "basic")
      as (a & r & tip & Ha & Hr & Hp & _ & _ & Hlo).
    vm_compute in Ha. injection Ha as <-.
    exists r. split; [exact Hr|]. rewrite Hp. f_equal.
    apply Hlo. cbn [complexity_score]. lia.
Defined.


(** ** Concatenation, prefixes and occurrences *)

Section Pieces.

Import PyStr.

Lemma sapp_nil_r (s : string) : s +++ "" = s.
Proof. induction s as [|a s IH]; cbn; [reflexivity | now rewrite IH]. Qed.

Lemma sapp_assoc (a b c : string) : (a +++ b) +++ c = a +++ b +++ c.
Proof. induction a as [|x a IH]; cbn; [reflexivity | now rewrite IH]. Qed.

Lemma sapp_length (a b : string) :
  String.length (a +++ b) = String.length a + String.length b.
Proof. induction a as [|x a IH]; cbn; [reflexivity | now rewrite IH]. Qed.

Lemma lower_app (a b : string) : lower (a +++ b) = lower a +++ lower b.
Proof. induction a as [|x a IH]; cbn; [reflexivity | now rewrite IH]. Qed.

Lemma lower_length (s : string) : String.length (lower s) = String.length s.
Proof. induction s as [|x s IH]; cbn; [reflexivity | now rewrite IH]. Qed.

Lemma startswith_app (p x : string) : startswith p (p +++ x) = true.
Proof.
  induction p as [|a p IH]; cbn; [reflexivity|].
  now rewrite Ascii.eqb_refl.
Qed.

Lemma startswith_inv (p s : string) :
  startswith p s = true -> s = p +++ drop (String.length p) s.
Proof.
  revert s. induction p as [|a p IH]; intros [|b s]; cbn; try easy.
  destruct (Ascii.eqb_spec a b) as [->|]; [|discriminate].
  intros H. now rewrite <- (IH s H).
Qed.

Lemma startswith_weaken (p q s : string) :
  startswith (p +++ q) s = true -> startswith p s = true.
Proof.
  revert s. induction p as [|a p IH]; intros [|b s]; cbn; try easy.
  destruct (Ascii.eqb a b); [apply IH | discriminate].
Qed.

Lemma startswith_extend (p s t : string) :
  startswith p s = true -> startswith p (s +++ t) = true.
Proof.
  intros H. rewrite (startswith_inv p s H), sapp_assoc.
  apply startswith_app.
Qed.

Lemma drop_app (p x : string) : drop (String.length p) (p +++ x) = x.
Proof. induction p as [|a p IH]; cbn; [now destruct x | exact IH]. Qed.

Lemma take_drop (n : nat) (s : string) : s = take n s +++ drop n s.
Proof.
  revert s. induction n as [|n IH]; intros [|a s]; cbn; try reflexivity.
  now rewrite <- IH.
Qed.

Lemma occurs_in_refl (s : string) : occurs_in s s.
Proof. exists "", "". cbn. now rewrite sapp_nil_r. Qed.

Lemma occurs_in_trans (a b c : string) :
  occurs_in a b -> occurs_in b c -> occurs_in a c.
Proof.
  intros (l & r & ->) (l' & r' & ->).
  exists (l' +++ l), (r +++ r'). now rewrite !sapp_assoc.
Qed.

Lemma occurs_in_cons (a s : string) (c : ascii) :
  occurs_in a s -> occurs_in a (String c s).
Proof. intros (l & r & ->). now exists (String c l), r. Qed.

Lemma occurs_in_prefix (a b : string) : occurs_in a (a +++ b).
Proof. now exists "", b. Qed.

Lemma occurs_in_suffix (a b : string) : occurs_in b (a +++ b).
Proof. exists a, "". now rewrite sapp_nil_r. Qed.

(** [sub in s] decides [occurs_in]. *)
Lemma contains_occurs (a s : string) :
  contains a s = true <-> occurs_in a s.
Proof.
  split.
  - induction s as [|c s IH]; cbn [contains].
    + destruct (startswith a "") eqn:E; [|discriminate].
      intros _. rewrite (startswith_inv _ _ E). apply occurs_in_prefix.
    + destruct (startswith a (String c s)) eqn:E.
      * intros _. rewrite (startswith_inv _ _ E). apply occurs_in_prefix.
      * intros H. apply occurs_in_cons, IH, H.
  - intros (l & r & ->). induction l as [|c l IH]; cbn [String.append].
    + destruct (a +++ r) eqn:E; cbn [contains];
        rewrite <- E, startswith_app; reflexivity.
    + cbn [contains]. rewrite IH.
      now destruct (startswith a (String c (l +++ a +++ r))).
Qed.

Lemma contains_false_cons (a s : string) (c : ascii) :
  contains a (String c s) = false -> contains a s = false.
Proof.
  cbn [contains]. now destruct (startswith a (String c s)).
Qed.

(** *** Stripping *)

Lemma lstrip_by_head (p : ascii -> bool) (s : string) :
  match lstrip_by p s with
  | EmptyString => True
  | String a _ => p a = false
  end.
Proof.
  induction s as [|a s IH]; cbn; [exact I|].
  destruct (p a) eqn:E; [exact IH | exact E].
Qed.

Lemma lstrip_by_suffix (p : ascii -> bool) (s : string) :
  exists l, s = l +++ lstrip_by p s.
Proof.
  induction s as [|a s [l IH]]; cbn; [now exists ""|].
  destruct (p a); [|now exists ""].
  exists (String a l). cbn. now rewrite <- IH.
Qed.

Lemma rstrip_by_prefix (p : ascii -> bool) (s : string) :
  exists r, s = rstrip_by p s +++ r.
Proof.
  induction s as [|a s [r IH]]; cbn [rstrip_by]; [now exists ""|].
  destruct (rstrip_by p s) as [|b t] eqn:E.
  - destruct (p a); [now exists (String a s)|].
    exists s. reflexivity.
  - exists r. cbn [String.append]. f_equal. exact IH.
Qed.

Lemma rstrip_by_keep_head (p : ascii -> bool) (a : ascii) (s : string) :
  p a = false -> exists t, rstrip_by p (String a s) = String a t.
Proof.
  intros Ha. cbn. destruct (rstrip_by p s); rewrite ?Ha; now eexists.
Qed.

Lemma rstrip_by_idem (p : ascii -> bool) (s : string) :
  rstrip_by p (rstrip_by p s) = rstrip_by p s.
Proof.
  induction s as [|a s IH]; cbn; [reflexivity|].
  destruct (rstrip_by p s) as [|b t] eqn:E.
  - destruct (p a) eqn:Ha; cbn; [reflexivity | now rewrite Ha].
  - cbn [rstrip_by] in *. now rewrite IH.
Qed.

Lemma lstrip_by_fixed (p : ascii -> bool) (a : ascii) (s : string) :
  p a = false -> lstrip_by p (String a s) = String a s.
Proof. intros H. cbn. now rewrite H. Qed.

Lemma strip_by_idem (p : ascii -> bool) (s : string) :
  strip_by p (strip_by p s) = strip_by p s.
Proof.
  unfold strip_by.
  pose proof (lstrip_by_head p s) as H.
  destruct (lstrip_by p s) as [|a t]; [reflexivity|].
  destruct (rstrip_by_keep_head p a t H) as [u E].
  rewrite E, (lstrip_by_fixed p a u H), <- E.
  apply rstrip_by_idem.
Qed.

Lemma strip_trimmed (s : string) : trimmed (strip s).
Proof. apply strip_by_idem. Qed.

Lemma strip_occurs (s : string) : occurs_in (strip s) s.
Proof.
  unfold strip, strip_by.
  destruct (lstrip_by_suffix isspace s) as [l Hl].
  destruct (rstrip_by_prefix isspace (lstrip_by isspace s)) as [r Hr].
  exists l, r. now rewrite <- Hr.
Qed.

Lemma rstrip_by_app_keep (p : ascii -> bool) (x s : string) :
  rstrip_by p s = s -> s <> "" -> rstrip_by p (x +++ s) = x +++ s.
Proof.
  intros Hs Hne. induction x as [|a x IH]; cbn; [exact Hs|].
  rewrite IH. destruct (x +++ s) eqn:E; [|reflexivity].
  destruct x; cbn in E; [contradiction | discriminate].
Qed.

Lemma lstrip_by_length (p : ascii -> bool) (s : string) :
  String.length (lstrip_by p s) <= String.length s.
Proof.
  induction s as [|a s IH]; cbn; [lia|]. destruct (p a); cbn; lia.
Qed.

Lemma rstrip_by_length (p : ascii -> bool) (s : string) :
  String.length (rstrip_by p s) <= String.length s.
Proof.
  induction s as [|a s IH]; cbn; [lia|].
  destruct (rstrip_by p s); [destruct (p a)|]; cbn in *; lia.
Qed.

(** A trimmed string is left alone by both halves of [strip]. *)
Lemma trimmed_parts (s : string) :
  trimmed s -> lstrip_by isspace s = s /\ rstrip_by isspace s = s.
Proof.
  unfold trimmed, strip, strip_by. intros H.
  assert (L : lstrip_by isspace s = s).
  { destruct s as [|a s]; [reflexivity|].
    cbn [lstrip_by] in *. destruct (isspace a); [|reflexivity].
    exfalso.
    pose proof (rstrip_by_length isspace (lstrip_by isspace s)).
    pose proof (lstrip_by_length isspace s).
    rewrite H in *. cbn in *. lia. }
  split; [exact L|]. now rewrite L in H.
Qed.

End Pieces.

(** ** The command-line parser *)

Section CommandLine.

Import PyStr.

Variable self : CLI.LyraCLI.

Lemma isspace_lower_char (c : ascii) : isspace (lower_char c) = isspace c.
Proof. destruct c as [[] [] [] [] [] [] [] []]; reflexivity. Qed.

Lemma lower_head (s k : string) (c : ascii) :
  lower s = String c k -> isspace c = false ->
  exists a t, s = String a t /\ isspace a = false.
Proof.
  destruct s as [|a t]; [discriminate|]. cbn [lower]. intros [= <- _] H.
  exists a, t. split; [reflexivity|]. now rewrite <- isspace_lower_char.
Qed.

Lemma rstrip_fixed_cons (a : ascii) (s : string) :
  rstrip_fixed s -> rstrip_fixed (String a s).
Proof.
  intros [H N]. split; [|discriminate].
  cbn [rstrip_by]. rewrite H. destruct s; [contradiction | reflexivity].
Qed.

Lemma rstrip_fixed_app (x s : string) :
  rstrip_fixed s -> rstrip_fixed (x +++ s).
Proof.
  intros [H N]. split.
  - now apply rstrip_by_app_keep.
  - destruct x; cbn; [exact N | discriminate].
Qed.

Lemma strip_space (a : ascii) (s : string) :
  isspace a = true -> strip (String a s) = strip s.
Proof. intros H. unfold strip, strip_by. cbn [lstrip_by]. now rewrite H. Qed.

Lemma strip_keep (a : ascii) (s : string) :
  isspace a = false -> rstrip_fixed s -> strip (String a s) = String a s.
Proof.
  intros H K. unfold strip, strip_by. cbn [lstrip_by]. rewrite H.
  apply (rstrip_fixed_cons a s K).
Qed.

Lemma drop_prefix (n : nat) (x r : string) :
  String.length x = n -> drop n (x +++ r) = r.
Proof. intros <-. apply drop_app. Qed.

Lemma lower_fixes_length (x k : string) :
  lower x = k -> String.length x = String.length k.
Proof. intros <-. symmetry. apply lower_length. Qed.

Lemma split1_absent (sep s : string) :
  contains sep s = false -> split1 sep s = [s].
Proof.
  induction s as [|a s IH]; cbn [contains split1].
  - now destruct (startswith sep "").
  - destruct (startswith sep (String a s)); [discriminate|].
    intros H. now rewrite (IH H).
Qed.

Lemma llen_two {A : Type} (l : list A) :
  (llen l =? 2)%Z = true -> exists x y, l = [x; y].
Proof.
  unfold llen. intros H. apply Z.eqb_eq in H.
  destruct l as [|x [|y [|z l]]]; cbn [List.length] in H; try lia.
  now exists x, y.
Qed.

Ltac firm := repeat (apply rstrip_fixed_cons || apply rstrip_fixed_app); assumption.

Ltac decide_prefix :=
  cbn [startswith String.append Ascii.eqb Bool.eqb andb]; cbv iota beta.

Lemma mode_keyword_step (M rest m : string) :
  In (lower M, m) [("detail", "detail"); ("basic", "basic")] ->
  (if startswith "detail" (lower (M +++ rest))
   then ("detail", strip (drop 6 (M +++ rest)))
   else if startswith "basic" (lower (M +++ rest))
   then ("basic", strip (drop 5 (M +++ rest)))
   else ("basic", M +++ rest))
  = (m, strip rest).
Proof.
  intros [H|[H|[]]]; injection H as HM Hm; subst m; symmetry in HM;
    pose proof (lower_fixes_length _ _ HM) as L; cbn [String.length] in L;
    rewrite lower_app, HM; decide_prefix;
    now rewrite (drop_prefix _ M rest L).
Qed.

(** The platform keyword at the head of the text after "using". *)
Lemma platform_keyword_step (Pl rest pl : string) :
  In (lower Pl, pl) [("chatgpt", "chatgpt"); ("claude", "claude");
                     ("gemini", "gemini"); ("gpt", "chatgpt")] ->
  (if startswith "chatgpt" (lower (Pl +++ rest))
   then ("chatgpt", strip (drop 7 (Pl +++ rest)))
   else if startswith "claude" (lower (Pl +++ rest))
   then ("claude", strip (drop 6 (Pl +++ rest)))
   else if startswith "gemini" (lower (Pl +++ rest))
   then ("gemini", strip (drop 6 (Pl +++ rest)))
   else if startswith "gpt" (lower (Pl +++ rest))
   then ("chatgpt", strip (drop 3 (Pl +++ rest)))
   else ("other", Pl +++ rest))
  = (pl, strip rest).
Proof.
  intros [H|[H|[H|[H|[]]]]]; injection H as HP Hp; subst pl; symmetry in HP;
    pose proof (lower_fixes_length _ _ HP) as L; cbn [String.length] in L;
    rewrite lower_app, HP; decide_prefix;
    now rewrite (drop_prefix _ Pl rest L).
Qed.

(** X1: a line in the documented form, a mode word (DETAIL or BASIC, in
    any letter case), " using ", a platform word (ChatGPT, Claude, Gemini
    or GPT, in any letter case), " - " and a non-empty prompt without
    whitespace at its ends, parses into that platform, that mode and
    that prompt. *)
Theorem parse_input_format (M Pl p m pl : string) :
  In (lower M, m) [("detail", "detail"); ("basic", "basic")] ->
  In (lower Pl, pl) [("chatgpt", "chatgpt"); ("claude", "claude");
                     ("gemini", "gemini"); ("gpt", "chatgpt")] ->
  trimmed p -> p <> "" ->
  CLI.parse_input self (M +++ " using " +++ Pl +++ " - " +++ p)
  = inr (pl, m, p).
Proof.
  intros HM HPl Hp Hne.
  destruct (trimmed_parts p Hp) as [_ Hr].
  assert (K : rstrip_fixed p) by (split; assumption).
  assert (Hhead : exists a t, Pl = String a t /\ isspace a = false).
  { destruct HPl as [H|[H|[H|[H|[]]]]]; injection H as H _;
      symmetry in H; apply (lower_head _ _ _ H); reflexivity. }
  destruct Hhead as (a & t & EPl & Ha).
  assert (E2 : strip (" using " +++ Pl +++ " - " +++ p)
               = "using" +++ " " +++ Pl +++ " - " +++ p).
  { cbn [String.append]. rewrite strip_space by reflexivity.
    apply strip_keep; [reflexivity | firm]. }
  assert (E3 : strip (" " +++ Pl +++ " - " +++ p) = Pl +++ " - " +++ p).
  { cbn [String.append]. rewrite strip_space by reflexivity.
    rewrite EPl. cbn [String.append]. apply strip_keep; [exact Ha | firm]. }
  assert (E5 : strip (" - " +++ p) = "-" +++ " " +++ p).
  { cbn [String.append]. rewrite strip_space by reflexivity.
    apply strip_keep; [reflexivity | firm]. }
  assert (E6 : strip (" " +++ p) = p).
  { cbn [String.append]. rewrite strip_space by reflexivity. exact Hp. }
  unfold CLI.parse_input.
  rewrite (mode_keyword_step _ _ _ HM), E2, lower_app.
  change (contains "using" (lower "using" +++ ?x)) with true. cbv iota.
  change (split1 "using" ("using" +++ ?x)) with [""; x].
  change (llen [""; ?x] =? 2)%Z with true. cbv iota.
  cbn [index nth_error bind Monad_either].
  rewrite E3, (platform_keyword_step _ _ _ HPl), E5.
  change (startswith "-" ("-" +++ ?x)) with true. cbv iota.
  change (drop 1 ("-" +++ ?x)) with x.
  rewrite E6. reflexivity.
Qed.

(** X2: the test for "using" ignores letter case but the split does not.
    When the text after a mode word has "using" only in another letter
    case, no platform is read and the prompt handed on is the whole line,
    mode word included. *)
Theorem parse_input_using_case (M rest m : string) :
  In (lower M, m) [("detail", "detail"); ("basic", "basic")] ->
  contains "using" (lower (strip rest)) = true ->
  contains "using" (strip rest) = false ->
  CLI.parse_input self (M +++ rest) = inr ("other", m, M +++ rest).
Proof.
  intros HM Hlow Hexact. unfold CLI.parse_input.
  rewrite (mode_keyword_step _ _ _ HM), Hlow, (split1_absent _ _ Hexact).
  reflexivity.
Qed.

(** X3: without "using" in any letter case, the prompt is the line after
    the leading mode word, stripped; the mode word is recognised as a bare
    prefix of the line, whatever follows it.  A line that starts with
    neither mode word is returned as it is, in mode basic. *)
Theorem parse_input_no_platform (M rest m : string) :
  (In (lower M, m) [("detail", "detail"); ("basic", "basic")] ->
   contains "using" (lower (strip rest)) = false ->
   CLI.parse_input self (M +++ rest) = inr ("other", m, strip rest))
  /\ (startswith "detail" (lower rest) = false ->
      startswith "basic" (lower rest) = false ->
      contains "using" (lower rest) = false ->
      CLI.parse_input self rest = inr ("other", "basic", rest)).
Proof.
  split.
  - intros HM Hno. unfold CLI.parse_input.
    now rewrite (mode_keyword_step _ _ _ HM), Hno.
  - intros Hd Hb Hno. unfold CLI.parse_input. now rewrite Hd, Hb, Hno.
Qed.

(** X4: [parse_input] returns for every line, and what it returns is
    always understood by the optimizer: the platform is one of the four
    names [_parse_platform] maps to the platform of that name, the mode is
    "detail" or "basic", mapped by [_parse_mode] to itself, and never the
    auto-detection word. *)
Theorem parse_input_range (o : LyraOptimizer) (user_input : string) :
  exists pl m p,
    CLI.parse_input self user_input = inr (pl, m, p)
    /\ In (pl, _parse_platform o pl)
         [("chatgpt", CHATGPT); ("claude", CLAUDE); ("gemini", GEMINI);
          ("other", OTHER)]
    /\ In (m, _parse_mode o m) [("detail", DETAIL); ("basic", BASIC)]
    /\ m <> "auto".
Proof.
  unfold CLI.parse_input.
  destruct (startswith "detail" (lower user_input));
    [|destruct (startswith "basic" (lower user_input))];
    cbv iota beta;
    match goal with
    | |- context [contains "using" (lower ?u)] =>
        destruct (contains "using" (lower u));
        [destruct (llen (split1 "using" u) =? 2)%Z eqn:E;
         [destruct (llen_two _ E) as (x & y & ->);
          cbn [index nth_error bind Monad_either];
          destruct (startswith "chatgpt" (lower (strip y)));
          [|destruct (startswith "claude" (lower (strip y)));
            [|destruct (startswith "gemini" (lower (strip y)));
              [|destruct (startswith "gpt" (lower (strip y)))]]]
         |]
        |]
    end;
    cbv iota beta; do 3 eexists;
    (split; [reflexivity|]);
    (split; [cbn; tauto|]); (split; [cbn; tauto | discriminate]).
Qed.

End CommandLine.

(** ** Diagnosis and delivery in closed form *)

Section Delivery.

Import PyStr.

Variable set_list : list string -> list string.
Variable self : LyraOptimizer.

Lemma llen_lt_2 {A : Type} (l : list A) :
  (negb (truthy l) || (llen l <? 2)%Z)%bool = (llen l <? 2)%Z.
Proof. now destruct l. Qed.

Lemma diagnose_closed (a : PromptAnalysis) :
  diagnose self a
  = inr [("critical_issues", clarity_issues a);
         ("improvements_needed", improvements_needed_of a);
         ("strengths", strengths_of a)].
Proof.
  unfold diagnose, improvements_needed_of, strengths_of.
  rewrite llen_lt_2.
  destruct (clarity_issues a) as [|i rest], (llen (key_entities a) <? 2)%Z,
    (truthy (output_requirements a)), (String.eqb (context_level a) "Low"),
    (String.eqb (context_level a) "High"), (7 <? complexity_score a)%Z,
    (truthy (constraints a)); reflexivity.
Qed.

Lemma deliver_closed (optimized : string) (a : PromptAnalysis)
  (techniques : list string) (m : Mode) :
  deliver self optimized a
    [("critical_issues", clarity_issues a);
     ("improvements_needed", improvements_needed_of a);
     ("strengths", strengths_of a)] techniques m
  = inr (mkResult optimized (improvements_of a) techniques
           (Some (_generate_pro_tip self a m))).
Proof.
  unfold deliver, improvements_of, improvements_needed_of.
  cbn [dict_get String.eqb Ascii.eqb Bool.eqb bind Monad_either].
  destruct (truthy (clarity_issues a)), (llen (key_entities a) <? 2)%Z,
    (truthy (output_requirements a)), (String.eqb (context_level a) "Low"),
    ((7 <? complexity_score a)%Z && negb (truthy (constraints a)))%bool;
    reflexivity.
Qed.

(** [optimize] as one record built from the analysis. *)
Lemma optimize_closed (prompt platform mode : string) :
  exists a,
    deconstruct set_list self prompt = inr a
    /\ optimize set_list self prompt platform mode
       = inr (mkResult
                (develop self prompt a (_parse_platform self platform)
                   (effective_mode self prompt mode))
                (improvements_of a)
                (_select_techniques self a (effective_mode self prompt mode))
                (Some (_generate_pro_tip self a
                         (effective_mode self prompt mode)))).
Proof.
  destruct (deconstruct_ok set_list self prompt) as (i & e & r & _ & Ha).
  eexists. split; [exact Ha|].
  unfold optimize. rewrite Ha. cbn [bind Monad_either].
  rewrite diagnose_closed. cbn [bind Monad_either].
  rewrite deliver_closed. unfold effective_mode.
  now destruct (String.eqb mode "auto").
Qed.

End Delivery.

(** ** What the result says about the prompt *)

Section Results.

Import PyStr.

Variable set_list : list string -> list string.
Variable self : LyraOptimizer.

Lemma join_head (sep x : string) (l : list string) :
  startswith x (join sep (x :: l)) = true.
Proof.
  unfold join. destruct l; cbn [String.concat].
  - rewrite <- (sapp_nil_r x) at 2. apply startswith_app.
  - apply startswith_app.
Qed.

Lemma join_occurs (sep x : string) (l : list string) :
  In x l -> occurs_in x (join sep l).
Proof.
  unfold join. induction l as [|y l IH]; [intros []|].
  intros [->|H]; destruct l as [|z l]; cbn [String.concat].
  - apply occurs_in_refl.
  - apply occurs_in_prefix.
  - destruct H.
  - apply (occurs_in_trans _ _ _ (IH H)).
    apply (occurs_in_trans _ (sep +++ String.concat sep (z :: l)));
      apply occurs_in_suffix.
Qed.

(** The platform adds at most a closing sentence to the prompt. *)
Lemma develop_platform (prompt : string) (a : PromptAnalysis)
  (pl : AIPlatform) (m : Mode) :
  exists suffix,
    develop self prompt a pl m = develop self prompt a OTHER m +++ suffix
    /\ (In pl [CHATGPT; OTHER] -> suffix = "").
Proof.
  unfold develop, _create_output_spec, _apply_platform_formatting.
  destruct pl.
  - exists "". now rewrite sapp_nil_r.
  - destruct (7 <? complexity_score a)%Z.
    + eexists. split; [reflexivity|]. intros [H|[H|[]]]; discriminate.
    + exists "". rewrite sapp_nil_r. split; [reflexivity|].
      intros [H|[H|[]]]; discriminate.
  - destruct (TaskType_eqb (task_type a) CREATIVE).
    + eexists. split; [reflexivity|]. intros [H|[H|[]]]; discriminate.
    + exists "". rewrite sapp_nil_r. split; [reflexivity|].
      intros [H|[H|[]]]; discriminate.
  - exists "". now rewrite sapp_nil_r.
Qed.

Lemma develop_frame (prompt : string) (a : PromptAnalysis) (m : Mode) :
  startswith (_assign_role self (task_type a))
    (develop self prompt a OTHER m) = true
  /\ occurs_in ("**Task:** " +++ core_intent a)
       (develop self prompt a OTHER m).
Proof.
  unfold develop, _apply_platform_formatting.
  change (mem "role_assignment" (_select_techniques self a m)) with true.
  cbv iota. split.
  - cbn [List.app]. apply join_head.
  - eapply occurs_in_trans; [|apply join_occurs with
      (x := _clarify_task self prompt a)].
    + unfold _clarify_task. destruct (_ && _)%bool.
      * apply occurs_in_prefix.
      * apply occurs_in_refl.
    + apply in_or_app. right. apply in_or_app. right. now left.
Qed.

Ltac settle_in :=
  let H := fresh "H" in
  intros H; cbn [String.append] in *;
  first [ solve [auto 10]
        | solve [lia]
        | solve [congruence]
        | solve [repeat (destruct H as [H|H]; try discriminate H);
                 try contradiction; auto; lia] ].

(** X5: the improvements reported by [optimize] are read off the analysis
    alone, whatever the platform and the mode: the output-specification
    line is there exactly when the prompt states no output requirement
    (also in basic mode, where no such block is added), the context line
    exactly when the context level is Low, the specificity line exactly
    when there are fewer than two entities, and the task-type line closes
    the list. *)
Theorem improvements_follow_analysis (prompt platform mode : string) :
  exists a r,
    deconstruct set_list self prompt = inr a
    /\ optimize set_list self prompt platform mode = inr r
    /\ improvements r = improvements_of a
    /\ (In "Added clear output specifications" (improvements r)
        <-> output_requirements a = [])
    /\ (In "Layered additional context" (improvements r)
        <-> context_level a = "Low")
    /\ (In "Enhanced specificity and detail" (improvements r)
        <-> (llen (key_entities a) < 2)%Z)
    /\ last (improvements r) ""
       = "Optimized for " +++ TaskType_value (task_type a) +++ " tasks".
Proof.
  destruct (optimize_closed set_list self prompt platform mode)
    as (a & Ha & Hr).
  exists a. eexists. split; [exact Ha|]. split; [exact Hr|].
  cbn [improvements]. split; [reflexivity|].
  unfold improvements_of.
  destruct (String.eqb_spec (context_level a) "Low") as [HL|HL],
    (Z.ltb_spec (llen (key_entities a)) 2),
    (output_requirements a) as [|q qs], (clarity_issues a) as [|c cs];
    cbn [truthy List.app last In];
    repeat match goal with
           | |- _ /\ _ => split
           | |- _ <-> _ => split
           | |- _ -> _ => settle_in
           | |- _ = _ => reflexivity
           end.
Qed.

(** X6: [diagnose] always returns a dictionary with exactly its three
    keys; the critical issues are the clarity issues of the analysis; the
    remark on the output format goes to the improvements when no
    requirement was found and to the strengths otherwise, never to both;
    a prompt is never told both to add context and that its context is
    good. *)
Theorem diagnose_shape (a : PromptAnalysis) :
  exists needed strengths,
    diagnose self a
    = inr [("critical_issues", clarity_issues a);
           ("improvements_needed", needed); ("strengths", strengths)]
    /\ (In "Specify desired output format" needed
        <-> ~ In "Output requirements defined" strengths)
    /\ ~ (In "Provide more context and background" needed
          /\ In "Good context provided" strengths)
    /\ ~ (In "Break down into steps or add constraints" needed
          /\ In "Clear constraints specified" strengths).
Proof.
  exists (improvements_needed_of a), (strengths_of a).
  split; [apply diagnose_closed|].
  unfold improvements_needed_of, strengths_of.
  destruct (String.eqb_spec (context_level a) "Low") as [HL|HL],
    (String.eqb_spec (context_level a) "High") as [HH|HH],
    (llen (key_entities a) <? 2)%Z, (truthy (output_requirements a)),
    (7 <? complexity_score a)%Z, (truthy (constraints a));
    try congruence; cbn [andb negb List.app In];
    repeat match goal with
           | |- _ /\ _ => split
           | |- _ <-> _ => split
           | |- ~ _ => let H := fresh "H" in intros H
           | |- _ -> _ => let H := fresh "H" in intros H
           | H : _ /\ _ |- _ => destruct H
           end;
    first [ solve [auto 10]
          | solve [contradiction]
          | solve [match goal with
                   | H : _ \/ _ |- _ =>
                       repeat (destruct H as [H|H]; try discriminate H);
                       contradiction
                   end]
          | solve [match goal with
                   | H : ~ _ |- _ => exfalso; apply H; auto 10
                   end] ].
Qed.

(** X7: every optimized prompt opens with the role sentence of the task
    type found by the analysis, one of the six fixed sentences below and
    never empty, and contains the Task header followed by the extracted
    intent; the techniques list always opens with role assignment and task
    decomposition. *)
Theorem optimized_prompt_frame (prompt platform mode : string) :
  exists a r role,
    deconstruct set_list self prompt = inr a
    /\ optimize set_list self prompt platform mode = inr r
    /\ In (task_type a, role)
         [ (CREATIVE, "You are a creative expert with a talent for innovative thinking and storytelling.");
           (TECHNICAL, "You are an experienced technical specialist with deep expertise in software development and problem-solving.");
           (ANALYTICAL, "You are a data analyst and critical thinker skilled at breaking down complex information.");
           (EDUCATIONAL, "You are an expert educator who excels at explaining concepts clearly and effectively.");
           (COMPLEX, "You are a strategic thinker capable of handling multifaceted challenges systematically.");
           (SIMPLE, "You are a helpful assistant focused on providing clear, concise responses.") ]
    /\ role <> ""
    /\ role = _assign_role self (task_type a)
    /\ startswith role (optimized_prompt r) = true
    /\ startswith "You are a" (optimized_prompt r) = true
    /\ contains ("**Task:** " +++ core_intent a) (optimized_prompt r) = true
    /\ firstn 2 (techniques_applied r)
       = ["role_assignment"; "task_decomposition"].
Proof.
  destruct (optimize_closed set_list self prompt platform mode)
    as (a & Ha & Hr).
  exists a. eexists. exists (_assign_role self (task_type a)).
  split; [exact Ha|]. split; [exact Hr|].
  cbn [optimized_prompt techniques_applied].
  destruct (develop_platform prompt a (_parse_platform self platform)
              (effective_mode self prompt mode)) as (suffix & -> & _).
  destruct (develop_frame prompt a (effective_mode self prompt mode))
    as [Hrole Htask].
  split; [destruct (task_type a); cbn [_assign_role In]; auto 10|].
  split; [destruct (task_type a); discriminate|].
  split; [reflexivity|].
  split; [apply startswith_extend; exact Hrole|].
  split.
  { apply startswith_extend.
    rewrite (startswith_inv _ _ Hrole).
    destruct (task_type a); reflexivity. }
  split; [|reflexivity].
  apply contains_occurs. eapply occurs_in_trans; [exact Htask|].
  apply occurs_in_prefix.
Qed.

(** X8: the platform only ever appends to the prompt written for "other":
    improvements, techniques and tip are the same for every platform, the
    optimized prompt for any platform starts with the one for "other", and
    for ChatGPT (and any unrecognised platform) the whole result is the
    same. *)
Theorem platform_only_appends (prompt platform mode : string) :
  exists r0 r,
    optimize set_list self prompt "other" mode = inr r0
    /\ optimize set_list self prompt platform mode = inr r
    /\ startswith (optimized_prompt r0) (optimized_prompt r) = true
    /\ improvements r = improvements r0
    /\ techniques_applied r = techniques_applied r0
    /\ pro_tip r = pro_tip r0
    /\ (In (_parse_platform self platform) [CHATGPT; OTHER] -> r = r0).
Proof.
  destruct (optimize_closed set_list self prompt "other" mode)
    as (a0 & Ha0 & Hr0).
  destruct (optimize_closed set_list self prompt platform mode)
    as (a & Ha & Hr).
  rewrite Ha0 in Ha. injection Ha as <-.
  do 2 eexists. split; [exact Hr0|]. split; [exact Hr|].
  cbn [optimized_prompt improvements techniques_applied pro_tip].
  change (_parse_platform self "other") with OTHER.
  destruct (develop_platform prompt a0 (_parse_platform self platform)
              (effective_mode self prompt mode)) as (suffix & E & Hs).
  rewrite E.
  split; [apply startswith_app|]. repeat (split; [reflexivity|]).
  intros H. rewrite (Hs H), sapp_nil_r. reflexivity.
Qed.

Lemma optimize_by_effective_mode (prompt platform mode mode' : string) :
  effective_mode self prompt mode = effective_mode self prompt mode' ->
  optimize set_list self prompt platform mode
  = optimize set_list self prompt platform mode'.
Proof.
  intros H.
  destruct (optimize_closed set_list self prompt platform mode)
    as (a & Ha & ->).
  destruct (optimize_closed set_list self prompt platform mode')
    as (a' & Ha' & ->).
  rewrite Ha in Ha'. injection Ha' as <-. now rewrite H.
Qed.

(** X9: the mode argument matters only through the mode it is parsed
    to: a string that contains "detail" in any letter case works as
    "detail"; every string that neither contains "detail" nor is exactly
    "auto", "AUTO" and the empty string included, works as "basic". *)
Theorem mode_string_fallback (prompt platform mode : string) :
  (contains "detail" (lower mode) = true ->
   optimize set_list self prompt platform mode
   = optimize set_list self prompt platform "detail")
  /\ (contains "detail" (lower mode) = false -> mode <> "auto" ->
      optimize set_list self prompt platform mode
      = optimize set_list self prompt platform "basic").
Proof.
  split; intros H.
  - apply optimize_by_effective_mode. unfold effective_mode, _parse_mode.
    destruct (String.eqb_spec mode "auto") as [->|_]; [discriminate|].
    now rewrite H.
  - intros Hauto. apply optimize_by_effective_mode.
    unfold effective_mode, _parse_mode.
    destruct (String.eqb_spec mode "auto") as [->|_]; [contradiction|].
    now rewrite H.
Qed.

End Results.

(** ** Where the fields of the analysis come from *)

Section Provenance.

Import PyStr.

Variable set_list : list string -> list string.
Variable self : LyraOptimizer.

Hypothesis set_list_NoDup : forall l, NoDup (set_list l).
Hypothesis set_list_In : forall l x, In x (set_list l) <-> In x l.

Lemma firstn_In {A : Type} (n : nat) (l : list A) (x : A) :
  In x (firstn n l) -> In x l.
Proof.
  revert l. induction n as [|n IH]; intros [|y l]; cbn; try tauto.
  intros [->|H]; [now left | right; now apply IH].
Qed.

Lemma firstn_NoDup {A : Type} (n : nat) (l : list A) :
  NoDup l -> NoDup (firstn n l).
Proof.
  revert l. induction n as [|n IH]; intros [|y l] H; cbn; try constructor.
  - inversion H; subst. intros Hin. now apply firstn_In in Hin.
  - inversion H; subst. now apply IH.
Qed.

Lemma capitalized_closed (words : list string) :
  Forall (fun w => nonempty w = true) words ->
  capitalized words
  = inr (map (strip_chars ".,!?;:") (filter is_capitalized words)).
Proof.
  induction 1 as [|w ws Hw _ IH]; cbn [capitalized filter map].
  - reflexivity.
  - destruct w as [|c w]; [discriminate|].
    cbn [head bind Monad_either is_capitalized]. rewrite IH.
    cbn [bind Monad_either ret].
    now destruct (isupper c && negb (mem (lower (String c w)) entity_stopwords))%bool.
Qed.

Lemma isupper_not_punctuation (c : ascii) :
  isupper c = true -> mem_char c ".,!?;:" = false.
Proof.
  destruct c as [[] [] [] [] [] [] [] []]; intros H;
    solve [reflexivity | discriminate H].
Qed.

Lemma strip_chars_capitalized (w : string) :
  is_capitalized w = true -> strip_chars ".,!?;:" w <> "".
Proof.
  destruct w as [|c w]; [discriminate|]. cbn [is_capitalized].
  intros H. apply andb_true_iff in H as [Hc _].
  apply isupper_not_punctuation in Hc.
  unfold strip_chars, strip_by.
  rewrite (lstrip_by_fixed (fun a => mem_char a ".,!?;:") c w Hc).
  destruct (rstrip_by_keep_head (fun a => mem_char a ".,!?;:") c w Hc)
    as [t ->].
  discriminate.
Qed.

Lemma entity_keywords_nonempty (k : string) :
  In k entity_keywords -> k <> "".
Proof.
  intros H. repeat (destruct H as [<-|H]; [discriminate|]). destruct H.
Qed.

Lemma deconstruct_entities (prompt : string) :
  exists a,
    deconstruct set_list self prompt = inr a
    /\ key_entities a
       = firstn 10
           (set_list
              (map (strip_chars ".,!?;:") (filter is_capitalized (split prompt))
               ++ filter (fun keyword => contains keyword (lower prompt))
                    entity_keywords)).
Proof.
  destruct (extract_intent_ok self prompt) as [i Hi].
  destruct (requirements_of_ok requirement_patterns (lower prompt)) as [r Hr].
  eexists. split.
  - unfold deconstruct, _extract_requirements, _extract_entities.
    rewrite Hi, (capitalized_closed _ (split_cons_nonempty prompt)), Hr.
    cbn [bind Monad_either ret]. reflexivity.
  - reflexivity.
Qed.

(** X10: the key entities of an analysis are at most ten, pairwise
    different and never empty, and each is either a word of the fixed
    vocabulary that occurs in the lower-cased prompt, or a capitalized
    word of the prompt (not one of the, a, an, i) with the punctuation
    .,!?;: removed from its ends. *)
Theorem key_entities_bounds (prompt : string) :
  exists a,
    deconstruct set_list self prompt = inr a
    /\ List.length (key_entities a) <= 10
    /\ NoDup (key_entities a)
    /\ forall e, In e (key_entities a) ->
         e <> ""
         /\ ((In e entity_keywords /\ contains e (lower prompt) = true)
             \/ exists w, In w (split prompt) /\ is_capitalized w = true
                          /\ e = strip_chars ".,!?;:" w).
Proof.
  destruct (deconstruct_entities prompt) as (a & Ha & He).
  exists a. split; [exact Ha|]. rewrite He.
  split; [apply firstn_le_length|].
  split; [apply firstn_NoDup, set_list_NoDup|].
  intros x Hx. apply firstn_In, set_list_In, in_app_or in Hx.
  destruct Hx as [Hx|Hx].
  - apply in_map_iff in Hx as (w & <- & Hw).
    apply filter_In in Hw as [Hw Hcap].
    split; [apply strip_chars_capitalized; exact Hcap|].
    right. exists w. repeat split; assumption.
  - apply filter_In in Hx as [Hk Hc].
    split; [apply entity_keywords_nonempty; exact Hk|].
    left. split; assumption.
Qed.

End Provenance.

(** ** The texts kept in the analysis *)

Section Texts.

Import PyStr.

Variable set_list : list string -> list string.
Variable self : LyraOptimizer.

Lemma take_occurs (n : nat) (s : string) : occurs_in (take n s) s.
Proof. rewrite (take_drop n s) at 2. apply occurs_in_prefix. Qed.

Lemma match_here_occurs (r : Re.regex) (prev : option ascii) (s g : string) :
  Re.match_here r prev s = Some g -> occurs_in g s.
Proof.
  unfold Re.match_here.
  destruct (Re.run r prev s _); [|discriminate].
  intros [= <-]. apply take_occurs.
Qed.

Lemma search_from_occurs (r : Re.regex) (s : string) :
  forall prev g, Re.search_from r prev s = Some g -> occurs_in g s.
Proof.
  induction s as [|a s IH]; intros prev g; cbn [Re.search_from];
    destruct (Re.match_here r prev _) eqn:E.
  - intros [= <-]. now apply match_here_occurs in E.
  - discriminate.
  - intros [= <-]. now apply match_here_occurs in E.
  - intros H. apply occurs_in_cons. now apply (IH (Some a)).
Qed.

(** [group(0)] of a search is a piece of the text searched. *)
Lemma search_occurs (r : Re.regex) (s g : string) :
  Re.search r s = Some g -> occurs_in g s.
Proof. apply search_from_occurs. Qed.

Lemma first_match_occurs (patterns : list Re.regex) (s g : string) :
  first_match patterns s = Some g -> occurs_in g s.
Proof.
  induction patterns as [|r rs IH]; cbn [first_match]; [discriminate|].
  destruct (Re.search r s) eqn:E; [|exact IH].
  intros [= <-]. now apply search_occurs in E.
Qed.

Lemma before_first_prefix (c : ascii) (s : string) :
  exists r, s = before_first c s +++ r.
Proof.
  induction s as [|a s [r IH]]; cbn [before_first]; [now exists ""|].
  destruct (Ascii.eqb a c); [now exists (String a s)|].
  exists r. cbn [String.append]. now rewrite <- IH.
Qed.

Lemma split_on_occurs (c : ascii) (s x : string) :
  In x (split_on c s) -> occurs_in x s.
Proof.
  revert x. induction s as [|a s IH]; intros x; cbn [split_on].
  - intros [<-|[]]. apply occurs_in_refl.
  - destruct (Ascii.eqb a c).
    + intros [<-|H]; [now exists "", (String a s)|].
      apply occurs_in_cons, IH, H.
    + destruct (split_on_first c s) as [rest E]. rewrite E in *.
      intros [<-|H].
      * destruct (before_first_prefix c s) as [r Hr].
        exists "", r. cbn [String.append]. now rewrite <- Hr.
      * apply occurs_in_cons, IH. now right.
Qed.

Lemma split_on_no_separator (c : ascii) (s x : string) :
  In x (split_on c s) -> contains (String c "") x = false.
Proof.
  revert x. induction s as [|a s IH]; intros x; cbn [split_on].
  - intros [<-|[]]. reflexivity.
  - destruct (Ascii.eqb_spec a c) as [->|Hac].
    + intros [<-|H]; [reflexivity | now apply IH].
    + destruct (split_on_first c s) as [rest E]. rewrite E in *.
      intros [<-|H]; [|apply IH; now right].
      cbn [contains startswith].
      destruct (Ascii.eqb_spec c a) as [->|_]; [contradiction|].
      cbn [andb]. apply IH. now left.
Qed.

Lemma lower_char_idem (c : ascii) : lower_char (lower_char c) = lower_char c.
Proof. destruct c as [[] [] [] [] [] [] [] []]; reflexivity. Qed.

Lemma lower_idem (s : string) : lower (lower s) = lower s.
Proof.
  induction s as [|c s IH]; cbn [lower]; [reflexivity|].
  now rewrite lower_char_idem, IH.
Qed.

Lemma sapp_inj_length (a a' b b' : string) :
  String.length a = String.length a' -> a +++ b = a' +++ b' ->
  a = a' /\ b = b'.
Proof.
  revert a'. induction a as [|x a IH]; intros [|x' a'] L E;
    cbn in L; try discriminate.
  - now split.
  - cbn in E. injection E as -> E. injection L as L.
    destruct (IH a' L E) as [-> ->]. now split.
Qed.

(** A piece of a lower-cased text is in lower case. *)
Lemma occurs_in_lower (g s : string) :
  occurs_in g (lower s) -> lower g = g.
Proof.
  intros (l & r & E).
  assert (E' : lower l +++ lower g +++ lower r = l +++ g +++ r)
    by (rewrite <- !lower_app, <- E; apply lower_idem).
  apply sapp_inj_length in E' as [_ E']; [|apply lower_length].
  apply sapp_inj_length in E' as [E' _]; [exact E' | apply lower_length].
Qed.

(** X11: the core intent never has whitespace at its ends and is always
    copied from the prompt: when one of the verb patterns matches, it is a
    piece of the lower-cased prompt (so the intent loses the capitals of
    the prompt); otherwise it is a piece of the prompt as written. *)
Theorem core_intent_provenance (prompt : string) :
  exists a,
    deconstruct set_list self prompt = inr a
    /\ trimmed (core_intent a)
    /\ (first_match action_patterns (lower prompt) <> None ->
        contains (core_intent a) (lower prompt) = true
        /\ lower (core_intent a) = core_intent a)
    /\ (first_match action_patterns (lower prompt) = None ->
        contains (core_intent a) prompt = true).
Proof.
  destruct (deconstruct_ok set_list self prompt) as (i & e & r & Hi & Ha).
  eexists. split; [exact Ha|]. cbn [core_intent].
  unfold _extract_intent in Hi.
  destruct (first_match action_patterns (lower prompt)) as [g|] eqn:E.
  - injection Hi as <-.
    assert (O : occurs_in (strip g) (lower prompt)).
    { eapply occurs_in_trans; [apply strip_occurs|].
      now apply first_match_occurs in E. }
    split; [apply strip_trimmed|]. split; [|discriminate].
    intros _. split; [now apply contains_occurs|].
    now apply occurs_in_lower in O.
  - destruct (split_on_first "." prompt) as [rest Hs]. rewrite Hs in Hi.
    cbn [truthy first bind Monad_either ret] in Hi. injection Hi as <-.
    split; [apply strip_trimmed|]. split; [congruence|].
    intros _. apply contains_occurs.
    eapply occurs_in_trans; [apply strip_occurs|].
    destruct (before_first_prefix "." prompt) as [t Ht].
    rewrite Ht at 2. apply occurs_in_prefix.
Qed.

(** X12: there are no more constraints than sentences, and every
    constraint is a piece of the prompt without whitespace at its ends and
    without a period in it. *)
Theorem constraints_provenance (prompt : string) :
  exists a,
    deconstruct set_list self prompt = inr a
    /\ List.length (constraints a) <= List.length (split_on "." prompt)
    /\ forall c, In c (constraints a) ->
         trimmed c /\ contains c prompt = true /\ contains "." c = false.
Proof.
  destruct (deconstruct_ok set_list self prompt) as (i & e & r & Hi & Ha).
  eexists. split; [exact Ha|]. cbn [constraints].
  unfold _extract_constraints. split.
  - rewrite length_map. apply filter_length_le.
  - intros c Hc. apply in_map_iff in Hc as (x & <- & Hx).
    apply filter_In in Hx as [Hx _].
    split; [apply strip_trimmed|]. split.
    + apply contains_occurs.
      eapply occurs_in_trans; [apply strip_occurs|].
      now apply split_on_occurs in Hx.
    + destruct (contains "." (strip x)) eqn:E; [|reflexivity].
      apply contains_occurs in E.
      pose proof (occurs_in_trans _ _ _ E (strip_occurs x)) as O.
      apply contains_occurs in O.
      now rewrite (split_on_no_separator _ _ _ Hx) in O.
Qed.

End Texts.

(** ** Output requirements and the alternations that find them *)

Section Requirements.

Import PyStr.

Variable set_list : list string -> list string.
Variable self : LyraOptimizer.

Lemma lit_run (w : string) :
  forall prev s,
    Re.lit w prev s (fun _ rest => Some rest)
    = if startswith w s then Some (drop (String.length w) s) else None.
Proof.
  induction w as [|a w IH]; intros prev s; cbn [Re.lit startswith].
  - reflexivity.
  - destruct s as [|b s]; [reflexivity|].
    cbn [String.length drop]. destruct (Ascii.eqb a b); [apply IH | reflexivity].
Qed.

Lemma alts_run (ws : list string) :
  forall w prev s,
    Re.run (Re.alts w ws) prev s (fun _ rest => Some rest)
    = option_map (fun w' => drop (String.length w') s) (first_word (w :: ws) s).
Proof.
  induction ws as [|w' ws IH]; intros w prev s; cbn [Re.alts Re.run first_word].
  - rewrite lit_run. now destruct (startswith w s).
  - rewrite lit_run. destruct (startswith w s); [reflexivity|].
    rewrite IH. reflexivity.
Qed.

Lemma first_word_spec (ws : list string) (s w : string) :
  first_word ws s = Some w -> In w ws /\ startswith w s = true.
Proof.
  induction ws as [|x ws IH]; cbn [first_word]; [discriminate|].
  destruct (startswith x s) eqn:E.
  - intros [= <-]. split; [now left | exact E].
  - intros H. destruct (IH H). split; [now right | assumption].
Qed.

Lemma take_app (w d : string) : take (String.length w) (w +++ d) = w.
Proof. induction w as [|a w IH]; cbn; [reflexivity | now rewrite IH]. Qed.

Lemma take_matched (w s : string) :
  startswith w s = true ->
  take (String.length s - String.length (drop (String.length w) s)) s = w.
Proof.
  intros H. pose proof (startswith_inv w s H) as E.
  remember (drop (String.length w) s) as d eqn:Hd. clear Hd. subst s.
  rewrite sapp_length.
  replace (String.length w + String.length d - String.length d)
    with (String.length w) by lia.
  apply take_app.
Qed.

(** An alternation of words matches, at the cursor, the first of its
    words the text starts with. *)
Lemma match_here_alts (w : string) (ws : list string)
  (prev : option ascii) (s : string) :
  Re.match_here (Re.alts w ws) prev s = first_word (w :: ws) s.
Proof.
  unfold Re.match_here. rewrite alts_run.
  destruct (first_word (w :: ws) s) as [w'|] eqn:E; cbn [option_map];
    [|reflexivity].
  apply first_word_spec in E as [_ E]. now rewrite take_matched.
Qed.

Lemma search_from_alts (w : string) (ws : list string) (s : string) :
  forall prev g,
    Re.search_from (Re.alts w ws) prev s = Some g ->
    exists s', first_word (w :: ws) s' = Some g.
Proof.
  induction s as [|a s IH]; intros prev g; cbn [Re.search_from];
    rewrite match_here_alts;
    destruct (first_word (w :: ws) _) eqn:E;
    try discriminate; try (intros [= <-]; eexists; exact E).
  apply IH.
Qed.

Lemma format_word (s g : string) :
  first_word ["format"; "formatted"; "structure"; "template"] s = Some g ->
  In g ["format"; "structure"; "template"].
Proof.
  cbn [first_word].
  destruct (startswith "format" s) eqn:E1; [intros [= <-]; cbn; tauto|].
  destruct (startswith "formatted" s) eqn:E2.
  - apply (startswith_weaken "format" "ted") in E2. congruence.
  - destruct (startswith "structure" s); [intros [= <-]; cbn; tauto|].
    destruct (startswith "template" s); [intros [= <-]; cbn; tauto|].
    discriminate.
Qed.

Lemma requirements_of_closed (items : list (string * Re.regex)) (s : string) :
  requirements_of items s
  = inr (flat_map
           (fun item =>
              match Re.search (snd item) s with
              | Some g => [capitalize (fst item) +++ ": " +++ g]
              | None => []
              end) items).
Proof.
  induction items as [|[req_type pattern] rest IH];
    cbn [requirements_of flat_map fst snd]; [reflexivity|].
  rewrite IH. now destruct (Re.search pattern s).
Qed.

Lemma deconstruct_requirements (prompt : string) :
  exists a,
    deconstruct set_list self prompt = inr a
    /\ output_requirements a
       = flat_map
           (fun item =>
              match Re.search (snd item) (lower prompt) with
              | Some g => [capitalize (fst item) +++ ": " +++ g]
              | None => []
              end) requirement_patterns.
Proof.
  destruct (extract_intent_ok self prompt) as [i Hi].
  destruct (extract_entities_ok set_list self prompt) as [e He].
  eexists. split.
  - unfold deconstruct, _extract_requirements.
    rewrite Hi, He, requirements_of_closed.
    cbn [bind Monad_either ret]. reflexivity.
  - reflexivity.
Qed.

(** X13: an analysis has at most five output requirements, at most one
    per category; each is a category label (Length, Format, Tone,
    Audience, Style), a colon and a space, and a piece of the lower-cased
    prompt.  A Format requirement is "Format: format", "Format: structure"
    or "Format: template": the alternative "formatted" of the pattern can
    never be the match. *)
Theorem output_requirements_shape (prompt : string) :
  exists a,
    deconstruct set_list self prompt = inr a
    /\ List.length (output_requirements a) <= 5
    /\ (forall req, In req (output_requirements a) ->
          exists label g,
            req = label +++ ": " +++ g
            /\ In label ["Length"; "Format"; "Tone"; "Audience"; "Style"]
            /\ contains g (lower prompt) = true)
    /\ (forall req, In req (output_requirements a) ->
          startswith "Format:" req = true ->
          In req ["Format: format"; "Format: structure"; "Format: template"]).
Proof.
  destruct (deconstruct_requirements prompt) as (a & Ha & Hr).
  exists a. split; [exact Ha|]. rewrite Hr. split; [|split].
  - unfold requirement_patterns. cbn [flat_map snd List.app].
    repeat match goal with
           | |- context [Re.search ?p ?s] => destruct (Re.search p s)
           end; cbn [List.app List.length]; lia.
  - intros req Hreq. apply in_flat_map in Hreq as ([t pat] & Hitem & Hin).
    cbn [fst snd] in Hin.
    destruct (Re.search pat (lower prompt)) as [g|] eqn:E; [|destruct Hin].
    destruct Hin as [<-|[]].
    apply search_occurs, contains_occurs in E.
    unfold requirement_patterns in Hitem.
    repeat (destruct Hitem as [Hitem|Hitem];
            [injection Hitem as <- _; eexists _, g;
             split; [reflexivity|]; split; [cbn; tauto | exact E]|]).
    destruct Hitem.
  - intros req Hreq Hf. apply in_flat_map in Hreq as ([t pat] & Hitem & Hin).
    cbn [fst snd] in Hin.
    destruct (Re.search pat (lower prompt)) as [g|] eqn:E; [|destruct Hin].
    destruct Hin as [<-|[]].
    unfold requirement_patterns in Hitem.
    destruct Hitem as [Hitem|[Hitem|Hitem]].
    + injection Hitem as <- _. discriminate Hf.
    + injection Hitem as <- <-.
      apply (search_from_alts "format" ["formatted"; "structure"; "template"]
               (lower prompt) None g) in E as [s' E].
      apply format_word in E.
      destruct E as [<-|[<-|[<-|[]]]]; cbn; tauto.
    + repeat (destruct Hitem as [Hitem|Hitem];
              [injection Hitem as <- _; discriminate Hf|]).
      destruct Hitem.
Qed.

End Requirements.

(** ** Scores, tips and modes *)

Section Scores.

Import PyStr.

Variable set_list : list string -> list string.
Variable self : LyraOptimizer.

Lemma llen_nonneg {A : Type} (l : list A) : (0 <= llen l)%Z.
Proof. unfold llen. lia. Qed.

Lemma clarity_issues_count (prompt : string) :
  (llen (_identify_clarity_issues self prompt) <= 4)%Z
  /\ ((5 <= llen (split prompt))%Z ->
      (llen (_identify_clarity_issues self prompt) <= 3)%Z).
Proof.
  unfold _identify_clarity_issues.
  destruct (any_in vague_indicators (lower prompt)),
    (Z.ltb_spec (llen (split prompt)) 5),
    (any_in format_indicators (lower prompt)),
    (Re.matched (Re.search pronoun_pattern (lower prompt)));
    cbn; lia.
Qed.

Lemma simple_is_short (prompt intent : string) :
  _determine_task_type self prompt intent = SIMPLE ->
  (llen (split prompt) <= 30)%Z.
Proof.
  unfold _determine_task_type.
  repeat match goal with
         | |- context [any_in ?ks ?s] => destruct (any_in ks s); try discriminate
         end.
  destruct (Z.ltb_spec 30 (llen (split prompt))); cbn [orb];
    [discriminate | lia].
Qed.

(** X14: the complexity score of an analysis is never below 1, so the
    lower clamp at 0 is never what decides it; the value 1 is reached. *)
Theorem complexity_score_floor (prompt : string) :
  (exists a,
      deconstruct set_list self prompt = inr a
      /\ (1 <= complexity_score a <= 10)%Z)
  /\ (exists a,
         deconstruct set_list self "please provide five nice apples" = inr a
         /\ complexity_score a = 1%Z).
Proof.
  split.
  - destruct (deconstruct_ok set_list self prompt) as (i & e & r & _ & Ha).
    eexists. split; [exact Ha|]. cbn [complexity_score].
    unfold _calculate_complexity.
    pose proof (llen_nonneg (_identify_clarity_issues self prompt)).
    destruct (Z.ltb_spec (llen (split prompt)) 10),
      (Z.ltb_spec 50 (llen (split prompt))),
      (_determine_task_type self prompt i); lia.
  - destruct (deconstruct_ok set_list self "please provide five nice apples")
      as (i & e & r & Hi & Ha).
    eexists. split; [exact Ha|]. cbn [complexity_score].
    vm_compute in Hi. injection Hi as <-. vm_compute. reflexivity.
Qed.

(** X15: a prompt classified Simple never scores above 6; so its tip is
    always the generic one, chain of thought is never among its
    techniques, and it never scores high enough for the iteration tip. *)
Theorem simple_task_is_plain (prompt platform mode : string) :
  exists a r,
    deconstruct set_list self prompt = inr a
    /\ optimize set_list self prompt platform mode = inr r
    /\ (task_type a = SIMPLE ->
        (complexity_score a <= 6)%Z
        /\ pro_tip r = Some default_tip
        /\ ~ In "chain_of_thought" (techniques_applied r)).
Proof.
  destruct (deconstruct_ok set_list self prompt) as (i & e & rq & _ & Ha).
  destruct (optimize_closed set_list self prompt platform mode)
    as (a & Ha' & Hr).
  rewrite Ha in Ha'. injection Ha' as <-.
  do 2 eexists. split; [exact Ha|]. split; [exact Hr|].
  cbn [task_type complexity_score pro_tip techniques_applied].
  intros Ht.
  assert (Hs : (_calculate_complexity self prompt
                  (_identify_clarity_issues self prompt)
                  (_determine_task_type self prompt i) <= 6)%Z).
  { pose proof (simple_is_short prompt i Ht).
    destruct (clarity_issues_count prompt) as [H4 H3].
    rewrite Ht. unfold _calculate_complexity.
    destruct (Z.ltb_spec (llen (split prompt)) 10),
      (Z.ltb_spec 50 (llen (split prompt))); lia. }
  split; [exact Hs|].
  unfold _generate_pro_tip, _select_techniques.
  cbn [task_type complexity_score]. rewrite Ht.
  destruct (Z.ltb_spec 7 (_calculate_complexity self prompt
                            (_identify_clarity_issues self prompt) SIMPLE));
    [rewrite Ht in Hs; lia|].
  split; [reflexivity|].
  destruct (effective_mode self prompt mode); cbn;
    intros Hin;
    repeat (destruct Hin as [Hin|Hin]; try discriminate Hin); exact Hin.
Qed.

(** X16: how mode "auto" resolves: a prompt of more than 25 tokens is
    optimized as in mode "detail"; a prompt of fewer than 15 tokens that
    contains write, create or make as in mode "basic", even when it also
    contains a cue such as professional; a prompt of at most 25 tokens
    without any of the cues professional, business, technical,
    comprehensive, detailed as in mode "basic". *)
Theorem auto_mode_resolution (prompt platform : string) :
  ((25 < llen (split prompt))%Z ->
   optimize set_list self prompt platform "auto"
   = optimize set_list self prompt platform "detail")
  /\ ((llen (split prompt) < 15)%Z ->
      any_in ["write"; "create"; "make"] (lower prompt) = true ->
      optimize set_list self prompt platform "auto"
      = optimize set_list self prompt platform "basic")
  /\ ((llen (split prompt) <= 25)%Z ->
      any_in ["professional"; "business"; "technical"; "comprehensive";
              "detailed"] (lower prompt) = false ->
      optimize set_list self prompt platform "auto"
      = optimize set_list self prompt platform "basic").
Proof.
  repeat split; intros H; try intros H';
    apply optimize_by_effective_mode;
    unfold effective_mode, _auto_detect_mode;
    cbn [String.eqb Ascii.eqb Bool.eqb];
    change (_parse_mode self "detail") with DETAIL;
    change (_parse_mode self "basic") with BASIC.
  - destruct (Z.ltb_spec (llen (split prompt)) 15); [lia|]. cbn [andb].
    destruct (Z.ltb_spec 25 (llen (split prompt))); [reflexivity | lia].
  - destruct (Z.ltb_spec (llen (split prompt)) 15); [|lia].
    now rewrite H'.
  - rewrite H'.
    destruct (Z.ltb_spec 25 (llen (split prompt))); [lia|].
    now destruct (_ && _)%bool.
Qed.

(** X17: for a Technical analysis the questions are at most two, and only
    the format question and the constraints question can be among them:
    neither the audience nor the length is ever asked. *)
Theorem technical_questions (a : PromptAnalysis) :
  task_type a = TECHNICAL ->
  List.length (generate_clarifying_questions self a) <= 2
  /\ incl (generate_clarifying_questions self a)
       [format_question; constraints_question].
Proof.
  intros Ht. unfold generate_clarifying_questions. rewrite Ht.
  cbn [TaskType_eqb orb negb andb].
  rewrite andb_false_r.
  destruct (truthy (output_requirements a)),
    ((7 <? complexity_score a)%Z && negb (truthy (constraints a)))%bool;
    cbn [negb List.app firstn List.length]; (split; [lia|]);
    intros x Hx; cbn [In] in *; tauto.
Qed.

(** X18: [_parse_platform] answers CHATGPT exactly when "gpt" occurs in
    the lower-cased string: the test for "chatgpt" never decides. *)
Theorem parse_platform_gpt (s : string) :
  _parse_platform self s = CHATGPT <-> contains "gpt" (lower s) = true.
Proof.
  unfold _parse_platform. split.
  - destruct (contains "chatgpt" (lower s)) eqn:E.
    + intros _. apply contains_occurs. apply contains_occurs in E.
      eapply occurs_in_trans; [|exact E]. apply (occurs_in_suffix "chat" "gpt").
    + cbn [orb]. destruct (contains "gpt" (lower s)); [reflexivity|].
      destruct (contains "claude" (lower s)); [discriminate|].
      destruct (contains "gemini" (lower s)); discriminate.
  - intros ->. now rewrite orb_true_r.
Qed.

End Scores.

(** ** Concrete runs of the further properties *)

Lemma parse_input_format_witness :
  CLI.parse_input CLI.__init__
    "DETAIL using ChatGPT - Write me a marketing email"
  = inr ("chatgpt", "detail", "Write me a marketing email")
  /\ CLI.parse_input CLI.__init__ "basic using Claude - Help with my resume"
     = inr ("claude", "basic", "Help with my resume").
Proof.
  split.
  - apply (parse_input_format CLI.__init__ "DETAIL" "ChatGPT"
             "Write me a marketing email" "detail" "chatgpt").
    + left; reflexivity.
    + left; reflexivity.
    + reflexivity.
    + discriminate.
  - apply (parse_input_format CLI.__init__ "basic" "Claude"
             "Help with my resume" "basic" "claude").
    + right; left; reflexivity.
    + right; left; reflexivity.
    + reflexivity.
    + discriminate.
Defined.

Lemma parse_input_using_case_witness :
  CLI.parse_input CLI.__init__ "DETAIL USING ChatGPT - hello"
  = inr ("other", "detail", "DETAIL USING ChatGPT - hello").
Proof.
  apply (parse_input_using_case CLI.__init__ "DETAIL"
           " USING ChatGPT - hello" "detail").
  - left; reflexivity.
  - reflexivity.
  - reflexivity.
Defined.

Lemma parse_input_no_platform_witness :
  CLI.parse_input CLI.__init__ "detailed report on cats"
  = inr ("other", "detail", "ed report on cats")
  /\ CLI.parse_input CLI.__init__ "hello world"
     = inr ("other", "basic", "hello world").
Proof.
  split.
  - apply (proj1 (parse_input_no_platform CLI.__init__ "detail"
                    "ed report on cats" "detail")).
    + left; reflexivity.
    + reflexivity.
  - apply (proj2 (parse_input_no_platform CLI.__init__ "" "hello world" ""));
      reflexivity.
Defined.

Lemma key_entities_bounds_witness :
  exists a,
    deconstruct insertion_order __init__ "Send the Report to Anna." = inr a
    /\ List.length (key_entities a) <= 10
    /\ NoDup (key_entities a)
    /\ forall e, In e (key_entities a) ->
         e <> ""
         /\ ((In e entity_keywords
              /\ PyStr.contains e (PyStr.lower "Send the Report to Anna.") = true)
             \/ exists w, In w (PyStr.split "Send the Report to Anna.")
                          /\ is_capitalized w = true
                          /\ e = PyStr.strip_chars ".,!?;:" w).
Proof.
  exact (key_entities_bounds insertion_order __init__ insertion_order_NoDup
           insertion_order_In "Send the Report to Anna.").
Defined.

Lemma mode_string_fallback_witness :
  optimize insertion_order __init__ "Write email" "other" "DETAILED please"
  = optimize insertion_order __init__ "Write email" "other" "detail"
  /\ optimize insertion_order __init__ "Write email" "other" "AUTO"
     = optimize insertion_order __init__ "Write email" "other" "basic".
Proof.
  split.
  - apply (proj1 (mode_string_fallback insertion_order __init__
                    "Write email" "other" "DETAILED please")).
    reflexivity.
  - apply (proj2 (mode_string_fallback insertion_order __init__
                    "Write email" "other" "AUTO")).
    + reflexivity.
    + discriminate.
Defined.

Lemma auto_mode_resolution_witness :
  optimize insertion_order __init__ "Write a professional email" "other" "auto"
  = optimize insertion_order __init__ "Write a professional email" "other"
      "basic"
  /\ optimize insertion_order __init__ "tell me more" "other" "auto"
     = optimize insertion_order __init__ "tell me more" "other" "basic"
  /\ optimize insertion_order __init__
       "a b c d e f g h i j k l m n o p q r s t u v w x y z" "other" "auto"
     = optimize insertion_order __init__
         "a b c d e f g h i j k l m n o p q r s t u v w x y z" "other" "detail".
Proof.
  split; [|split].
  - destruct (auto_mode_resolution insertion_order __init__
                "Write a professional email" "other") as (_ & H & _).
    apply H; reflexivity.
  - destruct (auto_mode_resolution insertion_order __init__
                "tell me more" "other") as (_ & _ & H).
    apply H; [vm_compute; discriminate | reflexivity].
  - destruct (auto_mode_resolution insertion_order __init__
                "a b c d e f g h i j k l m n o p q r s t u v w x y z" "other")
      as (H & _).
    apply H. reflexivity.
Defined.

Lemma simple_task_is_plain_witness :
  exists r,
    optimize insertion_order __init__ "Help" "claude" "detail" = inr r
    /\ pro_tip r = Some default_tip
    /\ ~ In "chain_of_thought" (techniques_applied r).
Proof.
  destruct (simple_task_is_plain insertion_order __init__ "Help" "claude"
              "detail") as (a & r & Ha & Hr & H).
  vm_compute in Ha. injection Ha as <-.
  exists r. split; [exact Hr|]. apply H. reflexivity.
Defined.

Lemma technical_questions_witness :
  List.length
    (generate_clarifying_questions __init__
       (mkAnalysis "fix the code" ["code"] "Low" [] [] [] TECHNICAL 9)) <= 2
  /\ incl
       (generate_clarifying_questions __init__
          (mkAnalysis "fix the code" ["code"] "Low" [] [] [] TECHNICAL 9))
       [format_question; constraints_question].
Proof.
  apply (technical_questions __init__
           (mkAnalysis "fix the code" ["code"] "Low" [] [] [] TECHNICAL 9)).
  reflexivity.
Defined.

Lemma platform_only_appends_witness :
  exists r,
    optimize insertion_order __init__ "Write email" "other" "basic" = inr r
    /\ optimize insertion_order __init__ "Write email" "ChatGPT" "basic"
       = inr r.
Proof.
  destruct (platform_only_appends insertion_order __init__ "Write email"
              "ChatGPT" "basic")
    as (r0 & r & H0 & Hr & _ & _ & _ & _ & Heq).
  exists r0. split; [exact H0|]. rewrite <- (Heq (or_introl eq_refl)).
  exact Hr.
Defined.

Lemma core_intent_provenance_witness :
  exists a,
    deconstruct insertion_order __init__ "Please Write Email" = inr a
    /\ PyStr.contains (core_intent a) (PyStr.lower "Please Write Email") = true
    /\ PyStr.lower (core_intent a) = core_intent a.
Proof.
  destruct (core_intent_provenance insertion_order __init__
              "Please Write Email") as (a & Ha & _ & H & _).
  exists a. split; [exact Ha|]. apply H. vm_compute. discriminate.
Defined.

(** ** Requirements and questions together *)

Section Questions.

Import PyStr.

Variable set_list : list string -> list string.
Variable self : LyraOptimizer.

(** X19: when the lower-cased prompt states a length (a number followed
    by words, pages, paragraphs or sentences), the first output requirement
    is the Length one and the question about the length is not asked. *)
Theorem stated_length_is_not_asked (prompt : string) (pattern : Re.regex) :
  In ("length", pattern) requirement_patterns ->
  Re.search pattern (lower prompt) <> None ->
  exists a g,
    deconstruct set_list self prompt = inr a
    /\ Re.search pattern (lower prompt) = Some g
    /\ hd_error (output_requirements a) = Some ("Length: " +++ g)
    /\ ~ In length_question (generate_clarifying_questions self a).
Proof.
  intros Hin Hsome.
  assert (Hp : pattern = snd (hd ("", Re.Bnd) requirement_patterns)).
  { unfold requirement_patterns in Hin.
    destruct Hin as [H|Hin]; [now injection H as <-|].
    repeat (destruct Hin as [H|Hin]; [discriminate H|]). destruct Hin. }
  destruct (Re.search pattern (lower prompt)) as [g|] eqn:E; [|congruence].
  destruct (deconstruct_requirements set_list self prompt) as (a & Ha & Hr).
  exists a, g. split; [exact Ha|]. split; [reflexivity|].
  assert (Hhd : exists rest, output_requirements a = ("Length: " +++ g) :: rest).
  { rewrite Hr. unfold requirement_patterns. cbn [flat_map fst snd].
    rewrite Hp in E. cbn [requirement_patterns hd snd] in E. rewrite E.
    eexists. reflexivity. }
  destruct Hhd as [rest Hhd]. rewrite Hhd. split; [reflexivity|].
  unfold generate_clarifying_questions. rewrite Hhd.
  cbn [existsb startswith String.append Ascii.eqb Bool.eqb andb orb negb truthy
       List.app].
  intros Hq. apply firstn_In in Hq.
  destruct (TaskType_eqb (task_type a) CREATIVE
            || TaskType_eqb (task_type a) EDUCATIONAL)%bool;
    [destruct (negb _)|];
    destruct (_ && _)%bool; cbn [List.app In] in Hq;
    repeat (destruct Hq as [Hq|Hq]; try discriminate Hq); exact Hq.
Qed.

End Questions.

Lemma stated_length_is_not_asked_witness :
  exists a,
    deconstruct insertion_order __init__ "Write an essay of 500 words" = inr a
    /\ hd_error (output_requirements a) = Some "Length: 500 words"
    /\ ~ In length_question (generate_clarifying_questions __init__ a).
Proof.
  destruct (stated_length_is_not_asked insertion_order __init__
              "Write an essay of 500 words"
              (snd (hd ("", Re.Bnd) requirement_patterns)))
    as (a & g & Ha & Hg & Hhd & Hq).
  - left. reflexivity.
  - vm_compute. discriminate.
  - vm_compute in Hg. injection Hg as <-.
    exists a. split; [exact Ha|]. split; [exact Hhd | exact Hq].
Defined.

(** ** Two calls and the iteration order of sets *)



Section SetOrder.

Import PyStr.

(** The iteration orders of two interpreter runs. *)
Variables sl1 sl2 : list string -> list string.

Hypothesis sl1_NoDup : forall l, NoDup (sl1 l).
Hypothesis sl1_In : forall l x, In x (sl1 l) <-> In x l.
Hypothesis sl2_NoDup : forall l, NoDup (sl2 l).
Hypothesis sl2_In : forall l x, In x (sl2 l) <-> In x l.





End SetOrder.


